(** * The workbench title bar (vs/workbench/browser/parts/titlebar/titlebarPart.ts)

    A shallow embedding of [TitlebarPart]: the window-title composer, the
    context menu of the represented file, the title buffer, the per-editor
    listeners and the focus styling, with the properties its description
    states about them.

    The part is a record of its fields together with what it touches outside
    itself (the title of the window, the listeners it has attached to editor
    inputs); every method is a function on that record. What the injected
    services answer at one moment is a record [Services], handed to each
    method; the functions imported from other modules are the parameters
    [Imports]. Events (window focus, configuration and editor changes, the
    calls of the public methods) are dispatched to the methods one after the
    other by [run].

    [layout] needs the numbers of the browser and the inherited layout of
    [Part]: they are the parameters [Browser], and the field it keeps is
    added to the part as [LaidOutPart]. The listener on the title element
    and [onContextMenu] are functions of the mouse event and the part.

    Left out: the double click on the title and the restoring of the focus
    after a mouse down, which only call the window service and the DOM. *)

From Stdlib Require Import Ascii String.
From stdpp Require Import base option list gmap strings pretty.

Local Open Scope list_scope.

(** ** JavaScript strings and values

    Strings are sequences of characters; an [option] stands for a value that
    may be [undefined] (or [null]). *)

Module Js.

(** [!!s], the truthiness of a string: every string but the empty one. *)
Definition nonempty (s : string) : bool :=
  match s with
  | EmptyString => false
  | String _ _ => true
  end.

(** Truthiness of a string-typed field that may still be [undefined]. *)
Definition truthy (v : option string) : bool :=
  match v with
  | Some s => nonempty s
  | None => false
  end.

(** [a || b] on strings. *)
Definition or_else (a b : string) : string :=
  if nonempty a then a else b.

(** [a || b] when [a] may be [null]. *)
Definition or_else_null (a : option string) (b : string) : string :=
  match a with
  | Some s => or_else s b
  | None => b
  end.

(** [a === b] on string-typed values that may be [undefined]. *)
Definition strict_eq (a b : option string) : bool :=
  match a, b with
  | Some x, Some y => String.eqb x y
  | None, None => true
  | _, _ => false
  end.

Fixpoint rev_onto (acc s : string) : string :=
  match s with
  | EmptyString => acc
  | String c s' => rev_onto (String c acc) s'
  end.

Definition rev (s : string) : string := rev_onto EmptyString s.

(** [String.prototype.split] with a non-empty separator: [skip] counts the
    characters of a separator occurrence still to be passed over, [cur] is
    the current segment, reversed. *)
Fixpoint split_scan (sep : string) (skip : nat) (cur s : string) : list string :=
  match s with
  | EmptyString => [rev cur]
  | String c s' =>
      match skip with
      | S k => split_scan sep k cur s'
      | O =>
          if String.prefix sep s
          then rev cur :: split_scan sep (String.length sep - 1) EmptyString s'
          else split_scan sep O (String c cur) s'
      end
  end.

Fixpoint chars (s : string) : list string :=
  match s with
  | EmptyString => []
  | String c s' => String c EmptyString :: chars s'
  end.

(** [s.split(sep)]; the empty separator cuts between all characters. *)
Definition split (s sep : string) : list string :=
  match sep with
  | EmptyString => chars s
  | String _ _ => split_scan sep O EmptyString s
  end.

(** [segments.join(sep)]. *)
Fixpoint join (sep : string) (segments : list string) : string :=
  match segments with
  | [] => EmptyString
  | [x] => x
  | x :: rest => x +:+ sep +:+ join sep rest
  end.

(** [segments.slice(0, n)]. *)
Definition slice0 {A} (n : nat) (segments : list A) : list A := take n segments.

End Js.

(** ** vs/base/common/paths *)

Module paths.

(** Modelled from the spec: [paths.sep], declared in vs/base/common/paths,
    is not among the sources; the description's paths ("/a/b/c.txt" with
    prefixes "/a/b" and "/a") are cut at the forward slash. *)
Definition sep : string := "/".

Definition is_sep (c : ascii) : bool := Ascii.eqb c "/"%char.

Fixpoint drop_seps (s : string) : string :=
  match s with
  | EmptyString => EmptyString
  | String c s' => if is_sep c then drop_seps s' else s
  end.

Fixpoint up_to_sep (s : string) : string :=
  match s with
  | EmptyString => EmptyString
  | String c s' => if is_sep c then EmptyString else String c (up_to_sep s')
  end.

Fixpoint has_sep (s : string) : bool :=
  match s with
  | EmptyString => false
  | String c s' => is_sep c || has_sep s'
  end.

Fixpoint after_sep (s : string) : string :=
  match s with
  | EmptyString => EmptyString
  | String c s' => if is_sep c then s' else after_sep s'
  end.

(** Modelled from the spec: [paths.basename] is not among the sources. The
    base name of a path is its last segment: what follows the last
    separator, separators at the very end set aside; a path of separators
    only has the empty base name. *)
Definition basename (path : string) : string :=
  Js.rev (up_to_sep (drop_seps (Js.rev path))).

(** Modelled from the spec: [paths.dirname] is not among the sources. The
    parent directory of a path is what precedes its last separator: the
    root itself for a path directly under the root, and "." for a path
    without any separator. *)
Definition dirname (path : string) : string :=
  if has_sep path then
    match Js.rev (after_sep (Js.rev path)) with
    | EmptyString => sep
    | parent => parent
    end
  else ".".

End paths.

(** ** The collaborators of the title bar *)

(** [Verbosity] of vs/platform/editor/common/editor. *)
Inductive Verbosity := SHORT | MEDIUM | LONG.

(** [WorkbenchState] of vs/platform/workspace/common/workspace. *)
Inductive WorkbenchState := EMPTY | FOLDER | WORKSPACE.

Definition WorkbenchState_eqb (a b : WorkbenchState) : bool :=
  match a, b with
  | EMPTY, EMPTY | FOLDER, FOLDER | WORKSPACE, WORKSPACE => true
  | _, _ => false
  end.

Record URI := { fsPath : string }.

(** An editor input, as far as the title bar looks at it: its identity (the
    object whose events are listened to), whether it is an [EditorInput], its
    titles, its dirty state and the file it edits, if any. *)
Record IEditorInput := {
  input_id : nat;
  instanceof_EditorInput : bool;
  getTitle : Verbosity -> string;
  isDirty : bool;
  input_resource : option URI;
}.

Record IEditor := { input : option IEditorInput }.

Record IWorkspace := {
  name : string;
  folders : list URI;
  configuration : option URI;
}.

(** The colours of vs/workbench/common/theme the title bar asks for. *)
Inductive ColorIdentifier :=
| TITLE_BAR_ACTIVE_FOREGROUND
| TITLE_BAR_INACTIVE_FOREGROUND
| TITLE_BAR_ACTIVE_BACKGROUND
| TITLE_BAR_INACTIVE_BACKGROUND
| TITLE_BAR_BORDER.

(** What the injected services answer at one moment. *)
Record Services := {
  (* IWorkbenchEditorService *)
  getActiveEditorInput : option IEditorInput;
  getActiveEditor : option IEditor;
  (* IWorkspaceContextService *)
  getWorkspace : IWorkspace;
  getWorkbenchState : WorkbenchState;
  getWorkspaceFolder : option URI -> option URI;
  (* IEnvironmentService *)
  appNameLong : string;
  isExtensionDevelopment : bool;
  (* IConfigurationService: lookup('window.title').value *)
  lookup_window_title : string;
  (* IThemeService, through Themable.getColor: a colour or null *)
  getColor : ColorIdentifier -> option string;
}.

(** A value of the object handed to [labels.template]. *)
Inductive TemplateValue :=
| Text (value : string)
| Separator (label : string)
| Null.

Definition of_nullable (v : option string) : TemplateValue :=
  match v with
  | Some s => Text s
  | None => Null
  end.

(** The functions the title bar imports from modules that are not part of
    this file: [paths.basename] and [paths.dirname], [labels.template],
    [labels.getPathLabel] (its third argument is the environment service)
    and [toResource] of vs/workbench/common/editor, called with
    [{ supportSideBySide: true, filter: 'file' }]. *)
Class Imports := {
  paths_basename : string -> string;
  paths_dirname : string -> string;
  labels_template : option string -> gmap string TemplateValue -> string;
  labels_getPathLabel : option URI -> Services -> option string;
  toResource : option IEditorInput -> option URI;
}.

(** ** The state of the part *)

(** The [div.window-title] element, a [Builder] around a DOM element. *)
Record TitleElement := { textContent : string }.

(** Modelled from the spec: [Builder.div] of vs/base/browser/builder is not
    among the sources; the display element of the title starts out without
    text. *)
Definition new_div : TitleElement := {| textContent := "" |}.

(** Modelled from the spec: [Builder.text] is not among the sources; it makes
    the given string the text the element displays. *)
Definition set_text (text : string) (element : TitleElement) : TitleElement :=
  {| textContent := text |}.

(** The element the part is rendered into, with the style properties
    assigned to it ([None] for an assigned null). *)
Record Container := { style : gmap string (option string) }.

(** Modelled from the spec: [Builder.style] is not among the sources; it
    applies the value to the style property of the container element. *)
Definition set_style (key : string) (value : option string) (c : Container) : Container :=
  {| style := <[key := value]> (style c) |}.

Inductive InputEvent := DidChangeDirty | DidChangeLabel.

Definition InputEvent_eqb (a b : InputEvent) : bool :=
  match a, b with
  | DidChangeDirty, DidChangeDirty | DidChangeLabel, DidChangeLabel => true
  | _, _ => false
  end.

(** A listener of the part attached to an event of an editor input;
    [listener_handle] identifies the [IDisposable] that detaches it. *)
Record Listener := {
  listener_handle : nat;
  listener_input : nat;
  listener_event : InputEvent;
}.

Record TitlebarPart := {
  titleContainer : option Container;
  title : option TitleElement;
  pendingTitle : option string;
  representedFileName : option string;
  isInactive : option bool;
  titleTemplate : option string;
  isPure : bool;
  activeEditorListeners : list nat;
  (* window.document.title *)
  document_title : string;
  (* the file the window service was told the window represents *)
  window_representedFilename : option string;
  (* the listeners of the part currently attached to editor inputs, and the
     next free handle *)
  attached : list Listener;
  next_handle : nat;
  (* history variable, not a field of the class: the arguments of the calls
     of setTitle so far, the most recent first *)
  setTitle_calls : list string;
}.

Definition with_title (v : option TitleElement) (this : TitlebarPart) : TitlebarPart :=
  {| titleContainer := titleContainer this; title := v;
     pendingTitle := pendingTitle this;
     representedFileName := representedFileName this;
     isInactive := isInactive this; titleTemplate := titleTemplate this;
     isPure := isPure this; activeEditorListeners := activeEditorListeners this;
     document_title := document_title this;
     window_representedFilename := window_representedFilename this;
     attached := attached this; next_handle := next_handle this;
     setTitle_calls := setTitle_calls this |}.

Definition with_titleContainer (v : option Container) (this : TitlebarPart) : TitlebarPart :=
  {| titleContainer := v; title := title this;
     pendingTitle := pendingTitle this;
     representedFileName := representedFileName this;
     isInactive := isInactive this; titleTemplate := titleTemplate this;
     isPure := isPure this; activeEditorListeners := activeEditorListeners this;
     document_title := document_title this;
     window_representedFilename := window_representedFilename this;
     attached := attached this; next_handle := next_handle this;
     setTitle_calls := setTitle_calls this |}.

Definition with_pendingTitle (v : option string) (this : TitlebarPart) : TitlebarPart :=
  {| titleContainer := titleContainer this; title := title this;
     pendingTitle := v;
     representedFileName := representedFileName this;
     isInactive := isInactive this; titleTemplate := titleTemplate this;
     isPure := isPure this; activeEditorListeners := activeEditorListeners this;
     document_title := document_title this;
     window_representedFilename := window_representedFilename this;
     attached := attached this; next_handle := next_handle this;
     setTitle_calls := setTitle_calls this |}.

Definition with_representedFileName (v : option string) (this : TitlebarPart) : TitlebarPart :=
  {| titleContainer := titleContainer this; title := title this;
     pendingTitle := pendingTitle this;
     representedFileName := v;
     isInactive := isInactive this; titleTemplate := titleTemplate this;
     isPure := isPure this; activeEditorListeners := activeEditorListeners this;
     document_title := document_title this;
     window_representedFilename := window_representedFilename this;
     attached := attached this; next_handle := next_handle this;
     setTitle_calls := setTitle_calls this |}.

Definition with_isInactive (v : option bool) (this : TitlebarPart) : TitlebarPart :=
  {| titleContainer := titleContainer this; title := title this;
     pendingTitle := pendingTitle this;
     representedFileName := representedFileName this;
     isInactive := v; titleTemplate := titleTemplate this;
     isPure := isPure this; activeEditorListeners := activeEditorListeners this;
     document_title := document_title this;
     window_representedFilename := window_representedFilename this;
     attached := attached this; next_handle := next_handle this;
     setTitle_calls := setTitle_calls this |}.

Definition with_titleTemplate (v : option string) (this : TitlebarPart) : TitlebarPart :=
  {| titleContainer := titleContainer this; title := title this;
     pendingTitle := pendingTitle this;
     representedFileName := representedFileName this;
     isInactive := isInactive this; titleTemplate := v;
     isPure := isPure this; activeEditorListeners := activeEditorListeners this;
     document_title := document_title this;
     window_representedFilename := window_representedFilename this;
     attached := attached this; next_handle := next_handle this;
     setTitle_calls := setTitle_calls this |}.

Definition with_isPure (v : bool) (this : TitlebarPart) : TitlebarPart :=
  {| titleContainer := titleContainer this; title := title this;
     pendingTitle := pendingTitle this;
     representedFileName := representedFileName this;
     isInactive := isInactive this; titleTemplate := titleTemplate this;
     isPure := v; activeEditorListeners := activeEditorListeners this;
     document_title := document_title this;
     window_representedFilename := window_representedFilename this;
     attached := attached this; next_handle := next_handle this;
     setTitle_calls := setTitle_calls this |}.

Definition with_activeEditorListeners (v : list nat) (this : TitlebarPart) : TitlebarPart :=
  {| titleContainer := titleContainer this; title := title this;
     pendingTitle := pendingTitle this;
     representedFileName := representedFileName this;
     isInactive := isInactive this; titleTemplate := titleTemplate this;
     isPure := isPure this; activeEditorListeners := v;
     document_title := document_title this;
     window_representedFilename := window_representedFilename this;
     attached := attached this; next_handle := next_handle this;
     setTitle_calls := setTitle_calls this |}.

Definition with_document_title (v : string) (this : TitlebarPart) : TitlebarPart :=
  {| titleContainer := titleContainer this; title := title this;
     pendingTitle := pendingTitle this;
     representedFileName := representedFileName this;
     isInactive := isInactive this; titleTemplate := titleTemplate this;
     isPure := isPure this; activeEditorListeners := activeEditorListeners this;
     document_title := v;
     window_representedFilename := window_representedFilename this;
     attached := attached this; next_handle := next_handle this;
     setTitle_calls := setTitle_calls this |}.

Definition with_window_representedFilename (v : option string) (this : TitlebarPart) : TitlebarPart :=
  {| titleContainer := titleContainer this; title := title this;
     pendingTitle := pendingTitle this;
     representedFileName := representedFileName this;
     isInactive := isInactive this; titleTemplate := titleTemplate this;
     isPure := isPure this; activeEditorListeners := activeEditorListeners this;
     document_title := document_title this;
     window_representedFilename := v;
     attached := attached this; next_handle := next_handle this;
     setTitle_calls := setTitle_calls this |}.

Definition with_attached (v : list Listener) (n : nat) (this : TitlebarPart) : TitlebarPart :=
  {| titleContainer := titleContainer this; title := title this;
     pendingTitle := pendingTitle this;
     representedFileName := representedFileName this;
     isInactive := isInactive this; titleTemplate := titleTemplate this;
     isPure := isPure this; activeEditorListeners := activeEditorListeners this;
     document_title := document_title this;
     window_representedFilename := window_representedFilename this;
     attached := v; next_handle := n;
     setTitle_calls := setTitle_calls this |}.

Definition with_setTitle_calls (v : list string) (this : TitlebarPart) : TitlebarPart :=
  {| titleContainer := titleContainer this; title := title this;
     pendingTitle := pendingTitle this;
     representedFileName := representedFileName this;
     isInactive := isInactive this; titleTemplate := titleTemplate this;
     isPure := isPure this; activeEditorListeners := activeEditorListeners this;
     document_title := document_title this;
     window_representedFilename := window_representedFilename this;
     attached := attached this; next_handle := next_handle this;
     setTitle_calls := v |}.

(** ** The window title *)

(** Modelled from the spec: [nls.localize] is not among the sources; the
    description gives both markers as fixed strings, the default messages of
    the two calls. *)
Definition NLS_UNSUPPORTED : string := "[Unsupported]".
Definition NLS_EXTENSION_HOST : string := "[Extension Development Host]".
Definition TITLE_DIRTY : string := "● ".
Definition TITLE_SEPARATOR : string := " — ".

Section Title.

Context `{Imports}.

(** The folder resource of [doGetWindowTitle]: the single root folder in a
    folder workbench, else the workspace folder of the active file. *)
Definition titleFolder (services : Services) : option URI :=
  if WorkbenchState_eqb (getWorkbenchState services) FOLDER
  then head (folders (getWorkspace services))
  else getWorkspaceFolder services (toResource (getActiveEditorInput services)).

Definition activeEditorShort (services : Services) : string :=
  match getActiveEditorInput services with
  | Some input => getTitle input SHORT
  | None => ""
  end.

Definition activeEditorMedium (services : Services) : string :=
  match getActiveEditorInput services with
  | Some input => getTitle input MEDIUM
  | None => activeEditorShort services
  end.

Definition activeEditorLong (services : Services) : string :=
  match getActiveEditorInput services with
  | Some input => getTitle input LONG
  | None => activeEditorMedium services
  end.

Definition rootName (services : Services) : string :=
  name (getWorkspace services).

Definition rootPath (services : Services) : string :=
  let workspace := getWorkspace services in
  let resource := match configuration workspace with
                  | Some c => Some c
                  | None => head (folders workspace)
                  end in
  Js.or_else_null (labels_getPathLabel resource services) "".

Definition folderName (services : Services) : string :=
  match titleFolder services with
  | Some folder => Js.or_else (paths_basename (fsPath folder)) (fsPath folder)
  | None => ""
  end.

Definition folderPath (services : Services) : option string :=
  match titleFolder services with
  | Some folder => labels_getPathLabel (Some folder) services
  | None => Some ""
  end.

Definition dirty (services : Services) : string :=
  match getActiveEditorInput services with
  | Some input => if isDirty input then TITLE_DIRTY else ""
  | None => ""
  end.

(** The object literal handed to [labels.template]. *)
Definition templateValues (services : Services) : gmap string TemplateValue :=
  <["activeEditorShort" := Text (activeEditorShort services)]>
  (<["activeEditorLong" := Text (activeEditorLong services)]>
  (<["activeEditorMedium" := Text (activeEditorMedium services)]>
  (<["rootName" := Text (rootName services)]>
  (<["rootPath" := Text (rootPath services)]>
  (<["folderName" := Text (folderName services)]>
  (<["folderPath" := of_nullable (folderPath services)]>
  (<["dirty" := Text (dirty services)]>
  (<["appName" := Text (appNameLong services)]>
  (<["separator" := Separator TITLE_SEPARATOR]> ∅))))))))).

Definition doGetWindowTitle (services : Services) (this : TitlebarPart) : string :=
  labels_template (titleTemplate this) (templateValues services).

Definition getWindowTitle (services : Services) (this : TitlebarPart) : string :=
  let title := doGetWindowTitle services this in
  let title := if Js.nonempty title then title else appNameLong services in
  let title := if isPure this then title
               else title +:+ " " +:+ NLS_UNSUPPORTED in
  let title := if isExtensionDevelopment services
               then NLS_EXTENSION_HOST +:+ " - " +:+ title
               else title in
  title.

(** ** Setting the title *)

Definition setTitle (title_ : string) (this : TitlebarPart) : TitlebarPart :=
  let this := with_setTitle_calls (title_ :: setTitle_calls this) this in
  (* Always set the native window title *)
  let this := with_document_title title_ this in
  (* Apply if we can *)
  match title this with
  | Some element => with_title (Some (set_text title_ element)) this
  | None => with_pendingTitle (Some title_) this
  end.

(** [createContentArea(parent)]; the listeners for double click, context
    menu and mouse down wired here do not touch the state below. *)
Definition createContentArea (parent : Container) (this : TitlebarPart) : TitlebarPart :=
  let this := with_titleContainer (Some parent) this in
  (* Title *)
  let this := with_title (Some new_div) this in
  match pendingTitle this with
  | Some pending =>
      if Js.nonempty pending
      then with_title (Some (set_text pending new_div)) this
      else this
  | None => this
  end.

Definition setRepresentedFilename (path : string) (this : TitlebarPart) : TitlebarPart :=
  let this := with_window_representedFilename (Some path) this in
  with_representedFileName (Some path) this.

(** ** The context menu of the represented file *)

(** [ShowItemInFolderAction]: reveals [path] in the file browser of the
    operating system when run. *)
Record ShowItemInFolderAction := {
  action_id : string;
  action_path : string;
  action_label : string;
}.

Definition new_ShowItemInFolderAction (path label : string) : ShowItemInFolderAction :=
  {| action_id := "showItemInFolder.action.id";
     action_path := path;
     action_label := label |}.

(** The body of the loop of [getContextMenuActions] at index [i]. *)
Definition contextMenuAction (segments : list string) (i : nat) : ShowItemInFolderAction :=
  let isFile := Nat.eqb i (length segments) in
  let pathOffset := if isFile then i else S i in
  let path := Js.join paths.sep (Js.slice0 pathOffset segments) in
  let label := if isFile then paths_basename path
               else paths_basename (paths_dirname path) in
  new_ShowItemInFolderAction path (Js.or_else label paths.sep).

(** [for (let i = segments.length; i > 0; i--)], run from [i] downwards. *)
Fixpoint contextMenuLoop (segments : list string) (i : nat) : list ShowItemInFolderAction :=
  match i with
  | O => []
  | S i' => contextMenuAction segments i :: contextMenuLoop segments i'
  end.

Definition getContextMenuActions (representedFileName : option string)
  : list ShowItemInFolderAction :=
  match representedFileName with
  | Some name =>
      if Js.nonempty name then
        let segments := Js.split name paths.sep in
        contextMenuLoop segments (length segments)
      else []
  | None => []
  end.

(** ** Focus and styles *)

(** Modelled from the spec: [Part.getContainer] is not among the sources;
    the container of the part is the element it is rendered into, the
    parent handed to [createContentArea]. *)
Definition getContainer (this : TitlebarPart) : option Container :=
  titleContainer this.

Definition inactive (this : TitlebarPart) : bool :=
  match isInactive this with
  | Some b => b
  | None => false
  end.

(** Modelled from the spec: [Part.updateStyles], the inherited method that
    [updateStyles] calls first, is not among the sources; the description
    gives it no effect on the title bar. *)
Definition super_updateStyles (this : TitlebarPart) : TitlebarPart := this.

Definition updateStyles (services : Services) (this : TitlebarPart) : TitlebarPart :=
  let this := super_updateStyles this in
  (* Part container *)
  match getContainer this with
  | Some container =>
      let container :=
        set_style "color"
          (getColor services (if inactive this then TITLE_BAR_INACTIVE_FOREGROUND
                              else TITLE_BAR_ACTIVE_FOREGROUND)) container in
      let container :=
        set_style "background-color"
          (getColor services (if inactive this then TITLE_BAR_INACTIVE_BACKGROUND
                              else TITLE_BAR_ACTIVE_BACKGROUND)) container in
      let titleBorder := getColor services TITLE_BAR_BORDER in
      let container :=
        set_style "border-bottom"
          (if Js.truthy titleBorder
           then Some ("1px solid " +:+ default "" titleBorder)
           else None) container in
      with_titleContainer (Some container) this
  | None => this
  end.

Definition onBlur (services : Services) (this : TitlebarPart) : TitlebarPart :=
  let this := with_isInactive (Some true) this in
  updateStyles services this.

Definition onFocus (services : Services) (this : TitlebarPart) : TitlebarPart :=
  let this := with_isInactive (Some false) this in
  updateStyles services this.

(** ** Reacting to the workbench *)

Definition onDidChangeWorkspaceFolders (services : Services) (this : TitlebarPart) : TitlebarPart :=
  setTitle (getWindowTitle services this) this.

Definition onDidChangeWorkspaceName (services : Services) (this : TitlebarPart) : TitlebarPart :=
  setTitle (getWindowTitle services this) this.

(** [onConfigurationChanged(update?)]; [update] is [false] when the
    argument is left out. *)
Definition onConfigurationChanged (update : bool) (services : Services)
    (this : TitlebarPart) : TitlebarPart :=
  let currentTitleTemplate := titleTemplate this in
  let this := with_titleTemplate (Some (lookup_window_title services)) this in
  if update && negb (Js.strict_eq currentTitleTemplate (titleTemplate this))
  then setTitle (getWindowTitle services this) this
  else this.

(** Modelled from the spec: [dispose] of vs/base/common/lifecycle is not
    among the sources; disposing a list of disposables releases each of them,
    here: detaches the listener each stands for. *)
Definition dispose (disposables : list nat) (this : TitlebarPart) : TitlebarPart :=
  with_attached
    (filter (fun l => listener_handle l ∉ disposables) (attached this))
    (next_handle this) this.

(** Modelled from the spec: the events [onDidChangeDirty] and
    [onDidChangeLabel] of [EditorInput] are not among the sources;
    subscribing to one attaches the listener and yields the disposable that
    releases it. *)
Definition listen (input : IEditorInput) (event : InputEvent) (this : TitlebarPart)
  : nat * TitlebarPart :=
  let handle := next_handle this in
  (handle,
   with_attached
     (attached this ++
      [{| listener_handle := handle; listener_input := input_id input;
          listener_event := event |}])
     (S handle) this).

(** [this.activeEditorListeners.push(disposable)]. *)
Definition push_activeEditorListener (disposable : nat) (this : TitlebarPart) : TitlebarPart :=
  with_activeEditorListeners (activeEditorListeners this ++ [disposable]) this.

(** The first two statements of [onEditorsChanged]. *)
Definition disposeOldListeners (this : TitlebarPart) : TitlebarPart :=
  let this := dispose (activeEditorListeners this) this in
  with_activeEditorListeners [] this.

(** The last statement of [onEditorsChanged]. *)
Definition applyListeners (activeInput : option IEditorInput) (this : TitlebarPart)
  : TitlebarPart :=
  match activeInput with
  | Some input =>
      if instanceof_EditorInput input then
        let '(d, this) := listen input DidChangeDirty this in
        let this := push_activeEditorListener d this in
        let '(d, this) := listen input DidChangeLabel this in
        push_activeEditorListener d this
      else this
  | None => this
  end.

Definition activeInputOf (services : Services) : option IEditorInput :=
  match getActiveEditor services with
  | Some activeEditor => input activeEditor
  | None => None
  end.

Definition onEditorsChanged (services : Services) (this : TitlebarPart) : TitlebarPart :=
  (* Dispose old listeners *)
  let this := disposeOldListeners this in
  let activeInput := activeInputOf services in
  (* Calculate New Window Title *)
  let this := setTitle (getWindowTitle services this) this in
  (* Apply listener for dirty and label changes *)
  applyListeners activeInput this.

(** The callback of both listeners. *)
Definition onInputDidChange (services : Services) (this : TitlebarPart) : TitlebarPart :=
  setTitle (getWindowTitle services this) this.

(** The listeners of the part attached to [event] of the input [id]. *)
Definition listenersOf (id : nat) (event : InputEvent) (this : TitlebarPart)
  : list Listener :=
  filter (fun l => listener_input l = id ∧ InputEvent_eqb (listener_event l) event = true)
         (attached this).

(** Modelled from the spec: the event emitters of [EditorInput] are not
    among the sources; when the input [id] fires [event], every listener
    attached to it runs. *)
Definition fire (id : nat) (event : InputEvent) (services : Services)
    (this : TitlebarPart) : TitlebarPart :=
  foldl (fun this _ => onInputDidChange services this) this (listenersOf id event this).

(** ** Construction and the events the part reacts to *)

(** The fields as the constructor finds and first assigns them:
    [isPure = true], [activeEditorListeners = []], all others still
    undefined; [doc] is the title the window has so far. *)
Definition new_TitlebarPart (doc : string) : TitlebarPart :=
  {| titleContainer := None; title := None; pendingTitle := None;
     representedFileName := None; isInactive := None; titleTemplate := None;
     isPure := true; activeEditorListeners := [];
     document_title := doc; window_representedFilename := None;
     attached := []; next_handle := 0; setTitle_calls := [] |}.

(** [init]: read the initial configuration; the two callbacks registered
    here run later, as the events [CreationJoined] and [IntegrityChecked]. *)
Definition init (services : Services) (this : TitlebarPart) : TitlebarPart :=
  onConfigurationChanged false services this.

Definition constructor (services : Services) (doc : string) : TitlebarPart :=
  init services (new_TitlebarPart doc).

Inductive Event :=
| WindowBlur
| WindowFocus
| DidUpdateConfiguration
| EditorsChanged
| DidChangeWorkspaceFolders
| DidChangeWorkspaceName
| CreationJoined
| IntegrityChecked (pure : bool)
| InputDidChange (id : nat) (event : InputEvent)
| CallSetTitle (title_ : string)
| CallSetRepresentedFilename (path : string)
| CallCreateContentArea (parent : Container).

(** The callback of [integrityService.isPure()]. *)
Definition onIntegrityChecked (pure : bool) (services : Services)
    (this : TitlebarPart) : TitlebarPart :=
  if negb pure then
    let this := with_isPure false this in
    setTitle (getWindowTitle services this) this
  else this.

Definition dispatch (services : Services) (event : Event) (this : TitlebarPart)
  : TitlebarPart :=
  match event with
  | WindowBlur => onBlur services this
  | WindowFocus => onFocus services this
  | DidUpdateConfiguration => onConfigurationChanged true services this
  | EditorsChanged => onEditorsChanged services this
  | DidChangeWorkspaceFolders => onDidChangeWorkspaceFolders services this
  | DidChangeWorkspaceName => onDidChangeWorkspaceName services this
  | CreationJoined => setTitle (getWindowTitle services this) this
  | IntegrityChecked pure => onIntegrityChecked pure services this
  | InputDidChange id event => fire id event services this
  | CallSetTitle title_ => setTitle title_ this
  | CallSetRepresentedFilename path => setRepresentedFilename path this
  | CallCreateContentArea parent => createContentArea parent this
  end.

(** A run: each event comes with what the services answer when it is
    handled. *)
Definition run (events : list (Services * Event)) (this : TitlebarPart) : TitlebarPart :=
  foldl (fun this e => dispatch (fst e) (snd e) this) this events.

Definition isCreate (e : Services * Event) : bool :=
  match snd e with
  | CallCreateContentArea _ => true
  | _ => false
  end.

Definition isEditorsChanged (e : Services * Event) : bool :=
  match snd e with
  | EditorsChanged => true
  | _ => false
  end.

(** The content area of a part is created at most once. *)
Definition createdAtMostOnce (events : list (Services * Event)) : bool :=
  Nat.leb (length (filter (fun e => isCreate e = true) events)) 1.

End Title.

(** ** A template resolver to run the composer with *)

Module labels.

Inductive Segment :=
| Literal (text : string)
| Value (text : string)
| Delimiter (text : string).

Definition resolve (values : gmap string TemplateValue) (placeholder : string) : Segment :=
  match values !! placeholder with
  | Some (Text v) => Value v
  | Some (Separator l) => Delimiter l
  | Some Null | None => Value ""
  end.

(** Cuts a template into literal text and resolved placeholders; [name] is
    the placeholder being read, [text] the literal text read so far, both
    reversed. An opening brace that is never closed stays literal text. *)
Fixpoint segments (values : gmap string TemplateValue) (name : option string)
    (text s : string) : list Segment :=
  match s with
  | EmptyString =>
      match name with
      | Some n => [Literal (Js.rev text +:+ "{" +:+ Js.rev n)]
      | None => [Literal (Js.rev text)]
      end
  | String c s' =>
      match name with
      | Some n =>
          if Ascii.eqb c "}"%char
          then Literal (Js.rev text) :: resolve values (Js.rev n)
                 :: segments values None EmptyString s'
          else segments values (Some (String c n)) text s'
      | None =>
          if Ascii.eqb c "{"%char
          then segments values (Some EmptyString) text s'
          else segments values None (String c text) s'
      end
  end.

Definition is_empty (seg : Segment) : bool :=
  match seg with
  | Literal t | Value t => negb (Js.nonempty t)
  | Delimiter _ => false
  end.

Definition starts_with_text (segs : list Segment) : bool :=
  match segs with
  | (Literal _ | Value _) :: _ => true
  | _ => false
  end.

(** Writes the segments out; a separator is written only between two
    non-empty pieces of text, [after_text] telling whether the piece
    written last was one. *)
Fixpoint render (after_text : bool) (segs : list Segment) : string :=
  match segs with
  | [] => ""
  | Delimiter l :: rest =>
      if after_text && starts_with_text rest
      then l +:+ render false rest
      else render after_text rest
  | (Literal t | Value t) :: rest => t +:+ render true rest
  end.

(** Modelled from the spec: [labels.template] is not among the sources.
    Each placeholder [{name}] is replaced by its mapped value, inserted as
    it is; a placeholder without a value resolves to the empty string; the
    separator is left out wherever a piece next to it is empty, so that the
    title has no leading, trailing or doubled separator. A template that is
    still undefined is resolved like the empty one. *)
Definition template (t : option string) (values : gmap string TemplateValue) : string :=
  render false
    (filter (fun seg => is_empty seg = false)
       (segments values None EmptyString (default "" t))).

(** Modelled from the spec: [labels.getPathLabel] is not among the sources;
    the label of a resource is taken to be its file system path, and there
    is none for an absent resource. *)
Definition getPathLabel (resource : option URI) (services : Services) : option string :=
  fsPath <$> resource.

(** Modelled from the spec: [toResource] is not among the sources; the
    resource of an editor input is taken to be the file it edits. *)
Definition toResource (input : option IEditorInput) : option URI :=
  input ≫= input_resource.

End labels.

Definition reference_imports : Imports :=
  {| paths_basename := paths.basename;
     paths_dirname := paths.dirname;
     labels_template := labels.template;
     labels_getPathLabel := labels.getPathLabel;
     toResource := labels.toResource |}.

(** ** Notions the properties are stated with *)

Section Vocabulary.

Context `{Imports}.

(** The base title: the resolved template, or the long name of the
    application when that is empty. *)
Definition baseTitle (services : Services) (this : TitlebarPart) : string :=
  Js.or_else (doGetWindowTitle services this) (appNameLong services).

(** Whether there is an active editor input and it is dirty. *)
Definition dirtyFlag (services : Services) : bool :=
  match getActiveEditorInput services with
  | Some input => isDirty input
  | None => false
  end.

(** What the title is composed from. *)
Record TitleInputs := {
  in_template : option string;
  in_activeEditorShort : string;
  in_activeEditorMedium : string;
  in_activeEditorLong : string;
  in_dirty : bool;
  in_rootName : string;
  in_rootPath : string;
  in_folderName : string;
  in_folderPath : option string;
  in_appName : string;
  in_isPure : bool;
  in_isExtensionDevelopment : bool;
}.

Definition titleInputs (services : Services) (this : TitlebarPart) : TitleInputs :=
  {| in_template := titleTemplate this;
     in_activeEditorShort := activeEditorShort services;
     in_activeEditorMedium := activeEditorMedium services;
     in_activeEditorLong := activeEditorLong services;
     in_dirty := dirtyFlag services;
     in_rootName := rootName services;
     in_rootPath := rootPath services;
     in_folderName := folderName services;
     in_folderPath := folderPath services;
     in_appName := appNameLong services;
     in_isPure := isPure this;
     in_isExtensionDevelopment := isExtensionDevelopment services |}.

(** The placeholders of the title template. *)
Definition placeholders : list string :=
  [ "activeEditorShort"; "activeEditorMedium"; "activeEditorLong";
    "rootName"; "rootPath"; "folderName"; "folderPath";
    "dirty"; "appName"; "separator" ].

(** The argument of the most recent call of [setTitle], if there was one. *)
Definition lastTitle (this : TitlebarPart) : option string :=
  head (setTitle_calls this).

(** The text the title element shows, once it exists. *)
Definition displayedTitle (this : TitlebarPart) : option string :=
  textContent <$> title this.






(** What a listener listens to. *)
Definition listenerTarget (l : Listener) : nat * InputEvent :=
  (listener_input l, listener_event l).

(** The listeners an active input calls for: on its dirty and on its label
    changes if it is an [EditorInput], none otherwise. *)
Definition listenersFor (activeInput : option IEditorInput) : list (nat * InputEvent) :=
  match activeInput with
  | Some input =>
      if instanceof_EditorInput input
      then [(input_id input, DidChangeDirty); (input_id input, DidChangeLabel)]
      else []
  | None => []
  end.

(** What the services answered at the last editors-changed event of a run. *)
Definition lastEditorsChanged (events : list (Services * Event)) : option Services :=
  fst <$> last (filter (fun e => isEditorsChanged e = true) events).

(** The attached listeners of the part are those whose disposables
    [activeEditorListeners] holds, in the same order. *)
Definition tracked (this : TitlebarPart) : Prop :=
  map listener_handle (attached this) = activeEditorListeners this.

(** The listeners attached after a run: those for the input that was
    active at its last editors-changed event. *)
Definition expectedListeners (events : list (Services * Event)) : list (nat * InputEvent) :=
  match lastEditorsChanged events with
  | Some services => listenersFor (activeInputOf services)
  | None => []
  end.

(** From the description: the dirty-changed and the label-changed listener
    of the current active editor, the editor the editor service reports
    with the input it holds; none when no editor is active, when the active
    editor has no input, or when its input is no [EditorInput]. Stated with
    the answers of the service alone, to compare what [onEditorsChanged]
    attaches with. *)
Definition listenersOfActiveEditor (services : Services) : list (nat * InputEvent) :=
  match getActiveEditor services with
  | Some activeEditor =>
      match input activeEditor with
      | Some activeInput =>
          if instanceof_EditorInput activeInput
          then [(input_id activeInput, DidChangeDirty);
                (input_id activeInput, DidChangeLabel)]
          else []
      | None => []
      end
  | None => []
  end.

(** The listeners of the editor that was active at the last editors-changed
    event of a run; none before the first such event. *)
Definition listenersOfCurrentEditor (events : list (Services * Event))
  : list (nat * InputEvent) :=
  match lastEditorsChanged events with
  | Some services => listenersOfActiveEditor services
  | None => []
  end.




(** The title element shows the title set last (the empty text before any
    was set); as long as there is no element, the title set last is kept
    in [pendingTitle]. *)
Definition titleShown (this : TitlebarPart) : Prop :=
  match title this with
  | Some element => textContent element = default "" (lastTitle this)
  | None => pendingTitle this = lastTitle this
  end.

(** Two states with the same title element, buffer and history. *)
Definition sameTitleState (this this' : TitlebarPart) : Prop :=
  title this' = title this
  /\ pendingTitle this' = pendingTitle this
  /\ setTitle_calls this' = setTitle_calls this.

(** The window title is the title set last, or the one the window had when
    none was set yet. *)
Definition nativeTitleSet (doc : string) (this : TitlebarPart) : Prop :=
  document_title this = default doc (lastTitle this).

(** Two states with the same listeners attached and held. *)
Definition sameListeners (this this' : TitlebarPart) : Prop :=
  attached this' = attached this
  /\ activeEditorListeners this' = activeEditorListeners this.

(** Two states that differ in the buffered title at most. *)
Definition sameButPending (this this' : TitlebarPart) : Prop :=
  with_pendingTitle None this = with_pendingTitle None this'.

(** [f] does not look at the buffered title. *)
Definition ignoresPending (f : TitlebarPart -> TitlebarPart) : Prop :=
  forall that,
    with_pendingTitle None (f that) = with_pendingTitle None (f (with_pendingTitle None that)).

(** How often a run creates the content area. *)
Definition creations (events : list (Services * Event)) : nat :=
  length (filter (fun e => isCreate e = true) events).

End Vocabulary.

(** ** Sample data *)

Definition sample_input (id : nat) (file : string) (isDirty_ : bool) : IEditorInput :=
  {| input_id := id;
     instanceof_EditorInput := true;
     getTitle := fun v => match v with
                          | SHORT => file
                          | MEDIUM => "src/" +:+ file
                          | LONG => "/home/proj/src/" +:+ file
                          end;
     isDirty := isDirty_;
     input_resource := Some {| fsPath := "/home/proj/src/" +:+ file |} |}.

Definition sample_workspace : IWorkspace :=
  {| name := "proj"; folders := [ {| fsPath := "/home/proj" |} ]; configuration := None |}.

Definition sample_theme (dark : bool) (id : ColorIdentifier) : option string :=
  match id with
  | TITLE_BAR_ACTIVE_FOREGROUND => Some (if dark then "#cccccc" else "#333333")
  | TITLE_BAR_INACTIVE_FOREGROUND => Some (if dark then "#999999" else "#666666")
  | TITLE_BAR_ACTIVE_BACKGROUND => Some (if dark then "#3c3c3c" else "#dddddd")
  | TITLE_BAR_INACTIVE_BACKGROUND => Some (if dark then "#2c2c2c" else "#eeeeee")
  | TITLE_BAR_BORDER => if dark then None else Some "#bbbbbb"
  end.

Definition sample_services (template : string) (activeInput : option IEditorInput)
    (dark : bool) : Services :=
  {| getActiveEditorInput := activeInput;
     getActiveEditor := Some {| input := activeInput |};
     getWorkspace := sample_workspace;
     getWorkbenchState := FOLDER;
     getWorkspaceFolder := fun _ => None;
     appNameLong := "Editor";
     isExtensionDevelopment := false;
     lookup_window_title := template;
     getColor := sample_theme dark |}.

(** An empty window: no editor, no folder. *)
Definition sample_empty_services (template : string) : Services :=
  {| getActiveEditorInput := None;
     getActiveEditor := None;
     getWorkspace := {| name := ""; folders := []; configuration := None |};
     getWorkbenchState := EMPTY;
     getWorkspaceFolder := fun _ => None;
     appNameLong := "Editor";
     isExtensionDevelopment := false;
     lookup_window_title := template;
     getColor := sample_theme false |}.

Definition sample_template : string :=
  "{dirty}{activeEditorShort}{separator}{rootName}{separator}{appName}".

(** ** The mouse on the title *)

(** The two events [createContentArea] listens to on the title element. *)
Inductive MouseEventType := CONTEXT_MENU | MOUSE_DOWN.

(** A mouse event, with the position [StandardMouseEvent] reads from it. *)
Record MouseEvent := {
  event_type : MouseEventType;
  metaKey : bool;
  posx : nat;
  posy : nat;
}.

(** The delegate handed to [contextMenuService.showContextMenu]; [onHide]
    disposes the actions listed in [disposedOnHide]. *)
Record ContextMenuDelegate := {
  getAnchor : nat * nat;
  getActions : list ShowItemInFolderAction;
  disposedOnHide : list ShowItemInFolderAction;
}.

(** What the listener on the title element did with an event: whether it
    stopped its propagation, and the menu it had shown, if any. *)
Record Handled := {
  stopped : bool;
  shown : option ContextMenuDelegate;
}.

Section Mouse.

Context `{Imports}.

(** [onContextMenu(e)]: the menu shown, or [None] when none is. *)
Definition onContextMenu (e : MouseEvent) (this : TitlebarPart) : option ContextMenuDelegate :=
  (* Find target anchor *)
  let anchor := (posx e, posy e) in
  (* Show menu *)
  let actions := getContextMenuActions (representedFileName this) in
  if negb (Nat.eqb (length actions) 0)
  then Some {| getAnchor := anchor; getActions := actions; disposedOnHide := actions |}
  else None.

(** The listener [createContentArea] puts on the title element for
    [CONTEXT_MENU] and [MOUSE_DOWN]. *)
Definition onTitleMouseEvent (e : MouseEvent) (this : TitlebarPart) : Handled :=
  if (match event_type e with CONTEXT_MENU => true | MOUSE_DOWN => false end) || metaKey e
  then {| stopped := true; shown := onContextMenu e this |}
  else {| stopped := false; shown := None |}.

End Mouse.

(** ** Layout *)

(** What [layout] takes from the browser and from [Part]: JavaScript numbers
    with [parseInt(_, 10)], the division and the conversion to a string of a
    template literal, the computed font size of an element, the dimensions
    and the inherited [super.layout]. *)
Class Browser := {
  number : Type;
  parseInt10 : string -> number;
  divide : number -> number -> number;
  number_toString : number -> string;
  computedFontSize : Container -> string;
  Dimension : Type;
  super_layout : Dimension -> list Dimension;
}.

Section Layout.

Context `{Imports} `{Browser}.

(** The part together with its field [initialTitleFontSize], undefined
    until the first layout. *)
Record LaidOutPart := {
  part : TitlebarPart;
  initialTitleFontSize : option number;
}.

(** [layout(dimension)], [zoomFactor] being what [getZoomFactor()] returns;
    [None] when it throws, which it does on the undefined [titleContainer]
    of a part without content area. *)
Definition layout (zoomFactor : number) (dimension : Dimension) (this : LaidOutPart)
  : option (list Dimension * LaidOutPart) :=
  match titleContainer (part this) with
  | Some container =>
      (* To prevent zooming we need to adjust the font size with the zoom factor *)
      let initial := match initialTitleFontSize this with
                     | Some size => size
                     | None => parseInt10 (computedFontSize container)
                     end in
      let container :=
        set_style "fontSize"
          (Some (number_toString (divide initial zoomFactor) +:+ "px")) container in
      Some (super_layout dimension,
            {| part := with_titleContainer (Some container) (part this);
               initialTitleFontSize := Some initial |})
  | None => None
  end.

(** What happens to a part: an event of the workbench, or a layout. *)
Inductive PartEvent :=
| Workbench (services : Services) (event : Event)
| Layout (zoomFactor : number) (dimension : Dimension).

(** A layout that throws leaves the part as it is. *)
Definition step (e : PartEvent) (this : LaidOutPart) : LaidOutPart :=
  match e with
  | Workbench services event =>
      {| part := dispatch services event (part this);
         initialTitleFontSize := initialTitleFontSize this |}
  | Layout zoomFactor dimension =>
      match layout zoomFactor dimension this with
      | Some (_, that) => that
      | None => this
      end
  end.

Definition steps (events : list PartEvent) (this : LaidOutPart) : LaidOutPart :=
  foldl (fun this e => step e this) this events.

Definition createsContentArea (e : PartEvent) : bool :=
  match e with
  | Workbench _ (CallCreateContentArea _) => true
  | _ => false
  end.

(** The zoom factor of the last layout among the events, if there is one. *)
Definition lastZoomFactor (events : list PartEvent) : option number :=
  foldl (fun z e => match e with Layout zoomFactor _ => Some zoomFactor | _ => z end)
        None events.

(** The font size assigned to the container of the part. *)
Definition fontSizeOf (this : LaidOutPart) : option (option string) :=
  titleContainer (part this) ≫= (fun container => style container !! "fontSize").

End Layout.

(** ** Notions the further properties are stated with *)

(** How many separators a path has. *)
Fixpoint separators (path : string) : nat :=
  match path with
  | EmptyString => 0
  | String c rest => (if paths.is_sep c then 1 else 0) + separators rest
  end.

Section MoreVocabulary.

Context `{Imports}.

Definition isConfigurationUpdate (e : Services * Event) : bool :=
  match snd e with
  | DidUpdateConfiguration => true
  | _ => false
  end.

(** The value of [window.title] the part has read last: at the last
    configuration update of the run, or else at construction. *)
Definition lastConfiguredTemplate (services0 : Services) (events : list (Services * Event))
  : string :=
  match last (filter (fun e => isConfigurationUpdate e = true) events) with
  | Some e => lookup_window_title (fst e)
  | None => lookup_window_title services0
  end.

Definition reportsNotPure (e : Services * Event) : bool :=
  match snd e with
  | IntegrityChecked pure => negb pure
  | _ => false
  end.

(** The path of the last call of [setRepresentedFilename] in a run. *)
Definition lastRepresentedFilename (events : list (Services * Event)) : option string :=
  foldl (fun path e => match snd e with
                       | CallSetRepresentedFilename p => Some p
                       | _ => path
                       end) None events.

(** The fields of the part but the history of the calls of [setTitle]. *)
Definition withoutHistory (this : TitlebarPart) : TitlebarPart :=
  with_setTitle_calls [] this.

(** Whether handling [event] calls [this.setTitle(this.getWindowTitle())]. *)
Definition refreshesTitle (services : Services) (event : Event) (this : TitlebarPart)
  : bool :=
  match event with
  | EditorsChanged | DidChangeWorkspaceFolders | DidChangeWorkspaceName
  | CreationJoined => true
  | IntegrityChecked pure => negb pure
  | DidUpdateConfiguration =>
      negb (Js.strict_eq (titleTemplate this) (Some (lookup_window_title services)))
  | InputDidChange id event => negb (Nat.eqb (length (listenersOf id event this)) 0)
  | _ => false
  end.

Definition isSetTitle (event : Event) : bool :=
  match event with
  | CallSetTitle _ => true
  | _ => false
  end.

(** The title of the window is the one [getWindowTitle] composes now. *)
Definition upToDate (services : Services) (this : TitlebarPart) : Prop :=
  document_title this = getWindowTitle services this.

End MoreVocabulary.

(** The digits a string starts with, as a number. *)
Fixpoint leading_digits (acc : nat) (s : string) : nat :=
  match s with
  | String c rest =>
      match Ascii.is_nat c with
      | Some digit => leading_digits (10 * acc + digit) rest
      | None => acc
      end
  | EmptyString => acc
  end.

(** A browser to run [layout] with: whole numbers, for font sizes that
    start with digits and zoom factors that divide them; every element has
    the font size 12px. *)
Definition sample_browser : Browser :=
  {| number := nat;
     parseInt10 := leading_digits 0;
     divide := Nat.div;
     number_toString := pretty;
     computedFontSize := fun _ => "12px";
     Dimension := nat * nat;
     super_layout := fun dimension => [dimension] |}.

(** * Properties *)

(** ** The context menu *)

Example split_absolute_path : Js.split "/a/b/c.txt" paths.sep = [""; "a"; "b"; "c.txt"].
Proof. reflexivity. Qed.

Example basename_of_root : paths.basename (paths.dirname "/a") = "".
Proof. reflexivity. Qed.

Section ContextMenuProperties.

Context `{Imports}.

Lemma contextMenuLoop_length segments i :
  length (contextMenuLoop segments i) = i.
Proof. induction i as [|i IH]; simpl; [reflexivity | now rewrite IH]. Qed.

(** The paths of the actions for "/a/b/c.txt", whatever the base and
    directory names of a path are. *)
Lemma getContextMenuActions_paths :
  map action_path (getContextMenuActions (Some "/a/b/c.txt"))
  = ["/a/b/c.txt"; "/a/b/c.txt"; "/a/b"; "/a"].
Proof. reflexivity. Qed.

End ContextMenuProperties.

(** C1, as stated, does not hold: for "/a/b/c.txt" the menu does not consist
    of three actions with the paths "/a/b/c.txt", "/a/b", "/a" (labelled
    "c.txt", "b", "a"), however the imported functions behave. *)
Lemma C1_three_actions_refuted :
  ~ exists imports : Imports,
      map (fun a => (action_label a, action_path a))
          (@getContextMenuActions imports (Some "/a/b/c.txt"))
      = [("c.txt", "/a/b/c.txt"); ("b", "/a/b"); ("a", "/a")].
Proof.
  intros [imports Hclaim].
  apply (f_equal (map snd)) in Hclaim.
  rewrite map_map in Hclaim. simpl in Hclaim. discriminate.
Qed.

(** C1, amended: for the represented path "/a/b/c.txt" the menu has exactly
    four actions, deepest first: the file "c.txt" revealing "/a/b/c.txt", the
    folders "b" and "a" revealing the item inside them ("/a/b/c.txt" and
    "/a/b"), and the root "/" revealing "/a"; the four paths do not depend on
    the imported functions; an unset or empty path gets no action. *)
Theorem C1_context_menu_actions :
  @getContextMenuActions reference_imports (Some "/a/b/c.txt") =
    [ new_ShowItemInFolderAction "/a/b/c.txt" "c.txt";
      new_ShowItemInFolderAction "/a/b/c.txt" "b";
      new_ShowItemInFolderAction "/a/b" "a";
      new_ShowItemInFolderAction "/a" "/" ]
  /\ (forall imports : Imports,
        map action_path (@getContextMenuActions imports (Some "/a/b/c.txt"))
        = ["/a/b/c.txt"; "/a/b/c.txt"; "/a/b"; "/a"]
        /\ @getContextMenuActions imports None = []
        /\ @getContextMenuActions imports (Some "") = []).
Proof.
  split; [reflexivity |].
  intros imports. repeat split.
Qed.

(** ** The composed title *)

Section TitleProperties.

Context `{Imports}.

(** C2: whenever the template resolves to the empty string, the title is
    the long name of the application, to which alone the markers for an
    unsupported build and for the extension development host are added. *)
Theorem C2_empty_title_falls_back_to_appName services this :
  doGetWindowTitle services this = "" ->
  getWindowTitle services this =
    match isPure this, isExtensionDevelopment services with
    | true, false => appNameLong services
    | false, false => appNameLong services +:+ " " +:+ NLS_UNSUPPORTED
    | true, true => NLS_EXTENSION_HOST +:+ " - " +:+ appNameLong services
    | false, true =>
        NLS_EXTENSION_HOST +:+ " - " +:+ (appNameLong services +:+ " " +:+ NLS_UNSUPPORTED)
    end.
Proof.
  intros Hempty. unfold getWindowTitle. rewrite Hempty. simpl.
  destruct (isPure this), (isExtensionDevelopment services); reflexivity.
Qed.

(** C3: whatever the base title, a part that is not pure gets the one
    suffix "[Unsupported]" (set off by a space), an extension development
    host the one prefix "[Extension Development Host] - ", and with both the
    prefix goes around the suffixed title; the part is not pure once the
    integrity check has reported so. *)
Theorem C3_unsupported_suffix_and_host_prefix services this :
  getWindowTitle services this =
    match isPure this, isExtensionDevelopment services with
    | true, false => baseTitle services this
    | false, false => baseTitle services this +:+ " " +:+ "[Unsupported]"
    | true, true => "[Extension Development Host] - " +:+ baseTitle services this
    | false, true =>
        "[Extension Development Host] - " +:+ (baseTitle services this +:+ " " +:+ "[Unsupported]")
    end
  /\ isPure (onIntegrityChecked false services this) = false.
Proof.
  split.
  - unfold getWindowTitle, baseTitle, Js.or_else.
    destruct (isPure this), (isExtensionDevelopment services); reflexivity.
  - unfold onIntegrityChecked, setTitle. simpl.
    now destruct (title this).
Qed.

End TitleProperties.

(** C2 at work with the resolver above: the template "" and the application
    name "Editor" give the title "Editor". *)
Lemma C2_empty_template_gives_appName :
  let services := sample_empty_services "" in
  let this := @constructor reference_imports services "untitled" in
  @doGetWindowTitle reference_imports services this = ""
  /\ @getWindowTitle reference_imports services this = "Editor".
Proof.
  split; [vm_compute; reflexivity |].
  exact (@C2_empty_title_falls_back_to_appName reference_imports
           (sample_empty_services "")
           (@constructor reference_imports (sample_empty_services "") "untitled")
           eq_refl).
Defined.

(** A title composed with the resolver above. *)
Example composed_title :
  let services :=
    sample_services sample_template (Some (sample_input 1 "a.txt" true)) false in
  let this := @constructor reference_imports services "untitled" in
  @getWindowTitle reference_imports services this = "● a.txt — proj — Editor"
  /\ @getWindowTitle reference_imports services (with_isPure false this)
     = "● a.txt — proj — Editor [Unsupported]".
Proof. vm_compute. split; reflexivity. Qed.

Section ComposerProperties.

Context `{Imports}.

Lemma dirty_of_flag services :
  dirty services = if dirtyFlag services then TITLE_DIRTY else "".
Proof.
  unfold dirty, dirtyFlag. now destruct (getActiveEditorInput services).
Qed.

Lemma templateValues_of_inputs s1 t1 s2 t2 :
  titleInputs s1 t1 = titleInputs s2 t2 ->
  templateValues s1 = templateValues s2.
Proof.
  intros Heq. unfold titleInputs in Heq.
  injection Heq as _ Hshort Hmedium Hlong Hdirty Hname Hpath Hfolder Hfpath Happ _ _.
  unfold templateValues. rewrite !dirty_of_flag.
  now rewrite Hshort, Hmedium, Hlong, Hdirty, Hname, Hpath, Hfolder, Hfpath, Happ.
Qed.

(** C6: the title is a function of the template, the three names of the
    active editor, its dirty flag, the name and path of the workspace root
    and of the folder, the application name and the two flags: two states
    of the part and of the services that agree on these get the same
    title, whatever else differs between them. *)
Theorem C6_title_depends_on_its_inputs_only s1 t1 s2 t2 :
  titleInputs s1 t1 = titleInputs s2 t2 ->
  getWindowTitle s1 t1 = getWindowTitle s2 t2.
Proof.
  intros Heq.
  pose proof (templateValues_of_inputs _ _ _ _ Heq) as Hvalues.
  pose proof (f_equal in_template Heq) as Htemplate.
  pose proof (f_equal in_appName Heq) as Happ.
  pose proof (f_equal in_isPure Heq) as Hpure.
  pose proof (f_equal in_isExtensionDevelopment Heq) as Hdev.
  simpl in Htemplate, Happ, Hpure, Hdev.
  unfold getWindowTitle, doGetWindowTitle.
  now rewrite Htemplate, Hvalues, Happ, Hpure, Hdev.
Qed.

Ltac lookup_value :=
  unfold templateValues;
  repeat (rewrite lookup_insert_ne by discriminate);
  rewrite lookup_insert_eq.

Lemma templateValues_activeEditorShort services :
  templateValues services !! "activeEditorShort" = Some (Text (activeEditorShort services)).
Proof. now lookup_value. Qed.

Lemma templateValues_activeEditorMedium services :
  templateValues services !! "activeEditorMedium" = Some (Text (activeEditorMedium services)).
Proof. now lookup_value. Qed.

Lemma templateValues_activeEditorLong services :
  templateValues services !! "activeEditorLong" = Some (Text (activeEditorLong services)).
Proof. now lookup_value. Qed.

Lemma templateValues_dirty services :
  templateValues services !! "dirty" = Some (Text (dirty services)).
Proof. now lookup_value. Qed.

Lemma templateValues_folderName services :
  templateValues services !! "folderName" = Some (Text (folderName services)).
Proof. now lookup_value. Qed.

Lemma templateValues_folderPath services :
  templateValues services !! "folderPath" = Some (of_nullable (folderPath services)).
Proof. now lookup_value. Qed.

(** Every value handed to the resolver is a string or the separator; only
    the folder path of a folder that is there can be null, when that is
    what [labels.getPathLabel] returned for it. *)
Lemma templateValues_null services key v :
  templateValues services !! key = Some v ->
  v = Null ->
  key = "folderPath"
  /\ exists folder, titleFolder services = Some folder
                   /\ labels_getPathLabel (Some folder) services = None.
Proof.
  unfold templateValues.
  repeat (rewrite lookup_insert; case_decide;
          [ intros [= <-]; try discriminate | ]).
  - intros Hnull. split; [now symmetry |].
    unfold folderPath in Hnull.
    destruct (titleFolder services) as [folder|]; [| discriminate].
    exists folder. split; [reflexivity |].
    now destruct (labels_getPathLabel (Some folder) services).
  - rewrite lookup_empty. discriminate.
Qed.

Lemma templateValues_bound services key :
  key ∈ placeholders -> is_Some (templateValues services !! key).
Proof.
  unfold placeholders. rewrite !elem_of_cons, elem_of_nil.
  unfold templateValues.
  intros Hkey.
  repeat (rewrite lookup_insert; case_decide; [ eexists; reflexivity | ]).
  intuition congruence.
Qed.

(** C7: without an active editor input the three editor names and the
    dirty marker handed to the template resolver are the empty string;
    when no folder applies, so are the folder name and the folder path.
    Every placeholder is bound, and no value is null for want of an editor
    or a folder: a null can only be the path that [labels.getPathLabel]
    gave for a folder that is there. *)
Theorem C7_absent_editor_and_folder_give_empty_strings services :
  (getActiveEditorInput services = None ->
     templateValues services !! "activeEditorShort" = Some (Text "")
     /\ templateValues services !! "activeEditorMedium" = Some (Text "")
     /\ templateValues services !! "activeEditorLong" = Some (Text "")
     /\ templateValues services !! "dirty" = Some (Text ""))
  /\ (titleFolder services = None ->
     templateValues services !! "folderName" = Some (Text "")
     /\ templateValues services !! "folderPath" = Some (Text "")
     /\ (forall key v, templateValues services !! key = Some v -> v <> Null))
  /\ (forall key, key ∈ placeholders -> is_Some (templateValues services !! key))
  /\ (forall key v,
        templateValues services !! key = Some v -> v = Null ->
        key = "folderPath"
        /\ exists folder, titleFolder services = Some folder
                         /\ labels_getPathLabel (Some folder) services = None).
Proof.
  split; [| split; [| split]].
  - intros Hinput.
    rewrite templateValues_activeEditorShort, templateValues_activeEditorMedium,
      templateValues_activeEditorLong, templateValues_dirty.
    unfold activeEditorLong, activeEditorMedium, activeEditorShort, dirty.
    now rewrite Hinput.
  - intros Hfolder.
    rewrite templateValues_folderName, templateValues_folderPath.
    unfold folderName, folderPath. rewrite Hfolder. simpl.
    repeat split.
    intros key v Hlookup Hnull.
    destruct (templateValues_null _ _ _ Hlookup Hnull) as (_ & folder & Hsome & _).
    congruence.
  - apply templateValues_bound.
  - apply templateValues_null.
Qed.

End ComposerProperties.

(** C6 on two states that differ in the buffered title, the window title,
    the focus and the theme, but in none of the inputs of the title. *)
Lemma C6_same_inputs_same_title :
  let s1 := sample_services sample_template (Some (sample_input 1 "a.txt" true)) false in
  let s2 := sample_services sample_template (Some (sample_input 1 "a.txt" true)) true in
  let t1 := @constructor reference_imports s1 "untitled" in
  let t2 := @run reference_imports [(s2, WindowBlur); (s2, CallSetTitle "x")] t1 in
  @titleInputs reference_imports s1 t1 = @titleInputs reference_imports s2 t2
  /\ pendingTitle t1 <> pendingTitle t2
  /\ @getWindowTitle reference_imports s1 t1 = @getWindowTitle reference_imports s2 t2.
Proof.
  assert (Hinputs :
    @titleInputs reference_imports
      (sample_services sample_template (Some (sample_input 1 "a.txt" true)) false)
      (@constructor reference_imports
         (sample_services sample_template (Some (sample_input 1 "a.txt" true)) false)
         "untitled")
    = @titleInputs reference_imports
      (sample_services sample_template (Some (sample_input 1 "a.txt" true)) true)
      (@run reference_imports
         [(sample_services sample_template (Some (sample_input 1 "a.txt" true)) true, WindowBlur);
          (sample_services sample_template (Some (sample_input 1 "a.txt" true)) true, CallSetTitle "x")]
         (@constructor reference_imports
            (sample_services sample_template (Some (sample_input 1 "a.txt" true)) false)
            "untitled")))
    by (vm_compute; reflexivity).
  split; [exact Hinputs |].
  split; [vm_compute; discriminate |].
  exact (@C6_title_depends_on_its_inputs_only reference_imports _ _ _ _ Hinputs).
Defined.

(** C7 in an empty window: no editor, no folder. *)
Lemma C7_empty_window_values :
  let values := @templateValues reference_imports (sample_empty_services sample_template) in
  values !! "activeEditorShort" = Some (Text "")
  /\ values !! "dirty" = Some (Text "")
  /\ values !! "folderPath" = Some (Text "").
Proof.
  pose proof (@C7_absent_editor_and_folder_give_empty_strings reference_imports
                (sample_empty_services sample_template)) as (Heditor & Hfolder & _).
  destruct (Heditor eq_refl) as (Hshort & _ & _ & Hdirty).
  destruct (Hfolder eq_refl) as (_ & Hpath & _).
  exact (conj Hshort (conj Hdirty Hpath)).
Defined.

(** ** The title buffer *)

Section BufferProperties.

Context `{Imports}.

Lemma run_snoc events e this :
  run (events ++ [e]) this = dispatch (fst e) (snd e) (run events this).
Proof. unfold run. now rewrite foldl_app. Qed.

Lemma run_cons e events this :
  run (e :: events) this = run events (dispatch (fst e) (snd e) this).
Proof. reflexivity. Qed.

(** Right after [setTitle] the title set is the one shown, or buffered. *)
Lemma setTitle_titleShown t this : titleShown (setTitle t this).
Proof.
  unfold titleShown, setTitle, lastTitle. simpl.
  destruct (title this) eqn:Htitle; simpl; rewrite ?Htitle; reflexivity.
Qed.

Lemma setTitle_title_None t this :
  title (setTitle t this) = None <-> title this = None.
Proof.
  unfold setTitle. simpl.
  destruct (title this) eqn:Htitle; simpl; rewrite ?Htitle;
    [split; discriminate | tauto].
Qed.

(** What holds after [setTitle] and is kept by it holds after the
    listeners of an input event have run. *)
Lemma fire_preserves (P : TitlebarPart -> Prop) id event services this :
  (forall t this', P this' -> P (setTitle t this')) ->
  P this -> P (fire id event services this).
Proof.
  intros Hkeep. unfold fire. generalize (listenersOf id event this).
  intros listeners. revert this.
  induction listeners as [|l listeners IH]; intros this HP; simpl; [assumption |].
  apply IH. unfold onInputDidChange. now apply Hkeep.
Qed.

Lemma updateStyles_title services this :
  title (updateStyles services this) = title this
  /\ pendingTitle (updateStyles services this) = pendingTitle this
  /\ setTitle_calls (updateStyles services this) = setTitle_calls this
  /\ document_title (updateStyles services this) = document_title this.
Proof. unfold updateStyles, super_updateStyles. now destruct (getContainer this). Qed.

Lemma titleShown_same this this' :
  sameTitleState this this' -> titleShown this -> titleShown this'.
Proof.
  unfold sameTitleState, titleShown, lastTitle.
  intros (-> & -> & ->). trivial.
Qed.

(** Every event but the creation of the content area keeps the invariant,
    and neither makes nor removes the title element. *)
Lemma dispatch_titleShown services event this :
  isCreate (services, event) = false ->
  titleShown this ->
  titleShown (dispatch services event this)
  /\ (title (dispatch services event this) = None <-> title this = None).
Proof.
  intros Hcreate Hshown.
  destruct event; simpl in Hcreate; try discriminate; simpl;
    unfold onDidChangeWorkspaceFolders, onDidChangeWorkspaceName;
    try (split; [apply setTitle_titleShown | apply setTitle_title_None]).
  - (* blur *)
    unfold onBlur.
    destruct (updateStyles_title services (with_isInactive (Some true) this))
      as (Ht & Hp & Hc & _).
    split; [| now rewrite Ht].
    apply (titleShown_same this); [| assumption]. now repeat split.
  - (* focus *)
    unfold onFocus.
    destruct (updateStyles_title services (with_isInactive (Some false) this))
      as (Ht & Hp & Hc & _).
    split; [| now rewrite Ht].
    apply (titleShown_same this); [| assumption]. now repeat split.
  - (* configuration *)
    unfold onConfigurationChanged. simpl.
    destruct (negb _).
    + split; [apply setTitle_titleShown |].
      now rewrite setTitle_title_None.
    + split; [assumption | reflexivity].
  - (* editors *)
    unfold onEditorsChanged, applyListeners.
    set (this1 := setTitle _ _).
    assert (Hshown1 : titleShown this1) by apply setTitle_titleShown.
    assert (Hnone1 : title this1 = None <-> title this = None).
    { unfold this1. now rewrite setTitle_title_None. }
    destruct (activeInputOf services) as [activeInput|]; [| now split].
    destruct (instanceof_EditorInput activeInput); now split.
  - (* integrity *)
    unfold onIntegrityChecked. destruct pure; simpl.
    + now split.
    + split; [apply setTitle_titleShown |].
      now rewrite setTitle_title_None.
  - (* input event *)
    apply (fire_preserves
             (fun this' => titleShown this' /\ (title this' = None <-> title this = None)));
      [| now split].
    intros t this' [_ Hnone]. split; [apply setTitle_titleShown |].
    now rewrite setTitle_title_None.
  - (* represented file *)
    unfold setRepresentedFilename. now split.
Qed.

(** Creating the content area moves the buffered title into the new
    element. *)
Lemma createContentArea_flushes parent this :
  title (createContentArea parent this)
  = Some {| textContent := default "" (pendingTitle this) |}
  /\ pendingTitle (createContentArea parent this) = pendingTitle this
  /\ setTitle_calls (createContentArea parent this) = setTitle_calls this
  /\ document_title (createContentArea parent this) = document_title this.
Proof.
  unfold createContentArea. simpl.
  destruct (pendingTitle this) as [[|c pending]|] eqn:Hpending; simpl;
    rewrite ?Hpending; now repeat split.
Qed.

Lemma createContentArea_titleShown parent this :
  title this = None -> titleShown this ->
  titleShown (createContentArea parent this).
Proof.
  intros Hnone. unfold titleShown. rewrite Hnone. intros Hpending.
  destruct (createContentArea_flushes parent this) as (-> & _ & Hcalls & _).
  simpl. unfold lastTitle in *. now rewrite Hcalls, Hpending.
Qed.

Lemma creations_cons e events :
  creations (e :: events) = (if isCreate e then 1 else 0) + creations events.
Proof.
  unfold creations. rewrite filter_cons.
  destruct (isCreate e) eqn:Hcreate; case_decide; simpl; congruence.
Qed.

Lemma run_titleShown events : forall this,
  titleShown this ->
  creations events ≤ match title this with Some _ => 0 | None => 1 end ->
  titleShown (run events this).
Proof.
  induction events as [|[services event] events IH]; intros this Hshown Hcreations;
    [assumption |].
  rewrite run_cons. rewrite creations_cons in Hcreations. simpl fst. simpl snd.
  destruct (isCreate (services, event)) eqn:Hcreate.
  - destruct event; simpl in Hcreate; try discriminate. simpl.
    destruct (title this) eqn:Htitle; [lia |].
    apply IH.
    + now apply createContentArea_titleShown.
    + destruct (createContentArea_flushes parent this) as (-> & _). lia.
  - destruct (dispatch_titleShown services event this Hcreate Hshown) as [Hshown' Hnone].
    apply IH; [assumption |].
    destruct (title this) eqn:Htitle, (title (dispatch services event this)) eqn:Htitle';
      try lia; destruct Hnone as [Hnew Hold];
      first [discriminate (Hnew eq_refl) | discriminate (Hold eq_refl)].
Qed.

Lemma constructor_fresh services doc :
  title (constructor services doc) = None
  /\ pendingTitle (constructor services doc) = None
  /\ setTitle_calls (constructor services doc) = []
  /\ document_title (constructor services doc) = doc
  /\ titleTemplate (constructor services doc) = Some (lookup_window_title services).
Proof. now repeat split. Qed.

Lemma sameButPending_title this this' :
  sameButPending this this' -> title this = title this'.
Proof. unfold sameButPending. intros Hsame. exact (f_equal title Hsame). Qed.

Lemma ignoresPending_same f this this' :
  ignoresPending f -> sameButPending this this' -> sameButPending (f this) (f this').
Proof.
  unfold ignoresPending, sameButPending. intros Hf Hsame.
  now rewrite (Hf this), (Hf this'), Hsame.
Qed.

Lemma ignoresPending_compose f g :
  ignoresPending f -> ignoresPending g -> ignoresPending (fun that => g (f that)).
Proof.
  unfold ignoresPending. intros Hf Hg that.
  now rewrite (Hg (f that)), (Hf that), <- (Hg (f (with_pendingTitle None that))).
Qed.

Lemma setTitle_ignoresPending t : ignoresPending (setTitle t).
Proof.
  intros that. unfold setTitle. destruct that as [? [element|] ? ? ? ? ? ? ? ? ? ? ?];
    reflexivity.
Qed.

Lemma refresh_ignoresPending services :
  ignoresPending (fun that => setTitle (getWindowTitle services that) that).
Proof.
  intros that.
  exact (setTitle_ignoresPending (getWindowTitle services that) that).
Qed.

Lemma updateStyles_ignoresPending services : ignoresPending (updateStyles services).
Proof.
  intros that. unfold updateStyles, super_updateStyles, getContainer.
  destruct that as [[container|] ? ? ? ? ? ? ? ? ? ? ? ?]; reflexivity.
Qed.

Lemma applyListeners_ignoresPending activeInput : ignoresPending (applyListeners activeInput).
Proof.
  intros that. unfold applyListeners.
  destruct activeInput as [activeInput|]; [| reflexivity].
  destruct (instanceof_EditorInput activeInput); reflexivity.
Qed.

Lemma repeat_ignoresPending services (listeners : list Listener) :
  ignoresPending
    (fun that => foldl (fun this _ => onInputDidChange services this) that listeners).
Proof.
  induction listeners as [|l listeners IH]; [intros that; reflexivity |].
  simpl.
  apply (ignoresPending_compose (onInputDidChange services)
           (fun that => foldl (fun this _ => onInputDidChange services this) that listeners));
    [apply refresh_ignoresPending | exact IH].
Qed.

Lemma onConfigurationChanged_unfold update services this :
  onConfigurationChanged update services this
  = let stored := with_titleTemplate (Some (lookup_window_title services)) this in
    if update && negb (Js.strict_eq (titleTemplate this) (Some (lookup_window_title services)))
    then setTitle (getWindowTitle services stored) stored
    else stored.
Proof. reflexivity. Qed.

(** No event but the creation of the content area looks at the buffered
    title. *)
Lemma dispatch_ignoresPending services event :
  isCreate (services, event) = false ->
  ignoresPending (dispatch services event).
Proof.
  intros Hcreate that.
  destruct event; simpl in Hcreate; try discriminate; cbn [dispatch].
  - exact (ignoresPending_compose (with_isInactive (Some true)) (updateStyles services)
             (fun _ => eq_refl) (updateStyles_ignoresPending services) that).
  - exact (ignoresPending_compose (with_isInactive (Some false)) (updateStyles services)
             (fun _ => eq_refl) (updateStyles_ignoresPending services) that).
  - rewrite !onConfigurationChanged_unfold.
    change (titleTemplate (with_pendingTitle None that)) with (titleTemplate that).
    cbv zeta. destruct (true && negb _); [| reflexivity].
    apply (refresh_ignoresPending services
             (with_titleTemplate (Some (lookup_window_title services)) that)).
  - exact (ignoresPending_compose
             (fun that => setTitle (getWindowTitle services (disposeOldListeners that))
                            (disposeOldListeners that))
             (applyListeners (activeInputOf services))
             (ignoresPending_compose disposeOldListeners
                (fun that => setTitle (getWindowTitle services that) that)
                (fun _ => eq_refl) (refresh_ignoresPending services))
             (applyListeners_ignoresPending (activeInputOf services)) that).
  - apply (refresh_ignoresPending services that).
  - apply (refresh_ignoresPending services that).
  - apply (refresh_ignoresPending services that).
  - unfold onIntegrityChecked. destruct pure; simpl; [reflexivity |].
    apply (refresh_ignoresPending services (with_isPure false that)).
  - unfold fire.
    apply (repeat_ignoresPending services (listenersOf id event that) that).
  - apply (setTitle_ignoresPending title_ that).
  - reflexivity.
Qed.

(** C4, as stated for all operations, does not hold, however the imported
    functions behave: set the title "a", create the content area, set the
    title "b" and create the content area again. The second element shows
    "a", the title [pendingTitle] still holds, while the title set last is
    "b": the buffer is applied a second time. *)
Lemma C4_second_creation_shows_a_stale_title :
  ~ exists imports : Imports,
      forall (services0 : Services) (doc : string) (events : list (Services * Event)),
        let this := @run imports events (@constructor imports services0 doc) in
        match title this with
        | Some element => textContent element = default "" (lastTitle this)
        | None => pendingTitle this = lastTitle this
        end.
Proof.
  intros [imports Hclaim].
  specialize (Hclaim (sample_empty_services sample_template) "untitled"
                [ (sample_empty_services sample_template, CallSetTitle "a");
                  (sample_empty_services sample_template,
                   CallCreateContentArea {| style := ∅ |});
                  (sample_empty_services sample_template, CallSetTitle "b");
                  (sample_empty_services sample_template,
                   CallCreateContentArea {| style := ∅ |}) ]).
  vm_compute in Hclaim. discriminate Hclaim.
Qed.

(** C4, amended: in every run that creates the content area at most once,
    the title element shows the argument of the most recent call of
    [setTitle] (and the empty text when there was none yet); while there is
    no element, that argument is kept in [pendingTitle]. Creating the
    element hands it what [pendingTitle] holds and leaves the buffer as it
    is, and nothing else ever reads the buffer: what any other event
    displays does not depend on it. *)
Theorem C4_displayed_title_is_the_last_one_set services0 doc events :
  createdAtMostOnce events = true ->
  let this := run events (constructor services0 doc) in
  match title this with
  | Some element => textContent element = default "" (lastTitle this)
  | None => pendingTitle this = lastTitle this
  end
  /\ (forall parent,
        displayedTitle (createContentArea parent this)
        = Some (default "" (pendingTitle this))
        /\ pendingTitle (createContentArea parent this) = pendingTitle this)
  /\ (forall services event buffered,
        isCreate (services, event) = false ->
        displayedTitle (dispatch services event (with_pendingTitle buffered this))
        = displayedTitle (dispatch services event this)).
Proof.
  intros Honce this. split; [| split].
  - apply run_titleShown.
    + reflexivity.
    + simpl. unfold createdAtMostOnce in Honce.
      now apply Nat.leb_le in Honce.
  - intros parent. unfold displayedTitle.
    destruct (createContentArea_flushes parent this) as (-> & Hbuffer & _).
    now split.
  - intros services event buffered Hcreate.
    assert (Hsame : sameButPending (with_pendingTitle buffered this) this)
      by reflexivity.
    pose proof (ignoresPending_same _ _ _
                  (dispatch_ignoresPending services event Hcreate) Hsame) as Hafter.
    unfold displayedTitle. now rewrite (sameButPending_title _ _ Hafter).
Qed.

End BufferProperties.

(** C4 on a run that sets the title twice before the content area exists:
    the new element shows the second title. *)
Lemma C4_buffered_title_reaches_the_element :
  let services := sample_services sample_template None false in
  let events := [ (services, CallSetTitle "first"); (services, CallSetTitle "second");
                  (services, CallCreateContentArea {| style := ∅ |}) ] in
  let this := @run reference_imports events (@constructor reference_imports services "untitled") in
  createdAtMostOnce events = true
  /\ lastTitle this = Some "second"
  /\ match title this with
     | Some element => textContent element = default "" (lastTitle this)
     | None => pendingTitle this = lastTitle this
     end.
Proof.
  intros services events this.
  split; [reflexivity |]. split; [vm_compute; reflexivity |].
  destruct (@C4_displayed_title_is_the_last_one_set reference_imports
              services "untitled" events eq_refl) as (Hshown & _ & _).
  exact Hshown.
Defined.

Section NativeTitleProperties.

Context `{Imports}.

Lemma setTitle_document_title t this :
  document_title (setTitle t this) = t /\ lastTitle (setTitle t this) = Some t.
Proof.
  unfold setTitle, lastTitle. simpl.
  destruct (title this) eqn:Htitle; simpl; rewrite ?Htitle; now split.
Qed.

Lemma dispatch_nativeTitleSet doc services event this :
  nativeTitleSet doc this -> nativeTitleSet doc (dispatch services event this).
Proof.
  assert (Hset : forall t this', nativeTitleSet doc (setTitle t this')).
  { intros t this'. unfold nativeTitleSet.
    destruct (setTitle_document_title t this') as [-> ->]. reflexivity. }
  unfold nativeTitleSet, lastTitle. intros Hnative.
  destruct event; simpl;
    unfold onDidChangeWorkspaceFolders, onDidChangeWorkspaceName;
    try apply Hset.
  - unfold onBlur.
    destruct (updateStyles_title services (with_isInactive (Some true) this))
      as (_ & _ & -> & ->). exact Hnative.
  - unfold onFocus.
    destruct (updateStyles_title services (with_isInactive (Some false) this))
      as (_ & _ & -> & ->). exact Hnative.
  - unfold onConfigurationChanged. destruct (_ && _); [apply Hset | exact Hnative].
  - unfold onEditorsChanged, applyListeners.
    set (this1 := setTitle _ _).
    pose proof (Hset (getWindowTitle services (disposeOldListeners this))
                     (disposeOldListeners this)) as Hnative1.
    fold this1 in Hnative1. unfold nativeTitleSet, lastTitle in Hnative1.
    destruct (activeInputOf services) as [activeInput|]; [| exact Hnative1].
    destruct (instanceof_EditorInput activeInput); exact Hnative1.
  - unfold onIntegrityChecked. destruct pure; simpl; [exact Hnative | apply Hset].
  - apply (fire_preserves (nativeTitleSet doc)); [| exact Hnative].
    intros t this' _. apply Hset.
  - exact Hnative.
  - destruct (createContentArea_flushes parent this) as (_ & _ & -> & ->).
    exact Hnative.
Qed.

Lemma run_nativeTitleSet doc events : forall this,
  nativeTitleSet doc this -> nativeTitleSet doc (run events this).
Proof.
  induction events as [|[services event] events IH]; intros this Hnative; [assumption |].
  rewrite run_cons. apply IH. now apply dispatch_nativeTitleSet.
Qed.

(** C9: every call of [setTitle] writes its argument to the title of the
    window at once; without a title element only the text of the element
    is put off, the argument being kept in [pendingTitle], and with one the
    element gets it too and the buffer stays as it is. In every run the
    title of the window is the argument of the most recent call. *)
Theorem C9_setTitle_writes_the_window_title_at_once t this :
  document_title (setTitle t this) = t
  /\ match title this with
     | None =>
         title (setTitle t this) = None
         /\ pendingTitle (setTitle t this) = Some t
     | Some _ =>
         title (setTitle t this) = Some {| textContent := t |}
         /\ pendingTitle (setTitle t this) = pendingTitle this
     end
  /\ forall services0 doc events,
       let that := run events (constructor services0 doc) in
       document_title that = default doc (lastTitle that).
Proof.
  split; [apply setTitle_document_title |]. split.
  - unfold setTitle. simpl.
    destruct (title this) eqn:Htitle; simpl; rewrite ?Htitle; now split.
  - intros services0 doc events. apply run_nativeTitleSet. reflexivity.
Qed.

(** C10: a configuration change that finds the stored template again
    leaves the part as it is: the template is stored anew, [setTitle] is
    not called, and the title shown and the title of the window stay. The
    read of the configuration at construction only stores the template:
    afterwards no title was set, none is buffered and the window has the
    title it had. *)
Theorem C10_unchanged_template_sets_no_title services this :
  titleTemplate this = Some (lookup_window_title services) ->
  onConfigurationChanged true services this = this
  /\ (forall that,
        onConfigurationChanged false services that
        = with_titleTemplate (Some (lookup_window_title services)) that)
  /\ (forall doc,
        setTitle_calls (constructor services doc) = []
        /\ document_title (constructor services doc) = doc
        /\ title (constructor services doc) = None
        /\ pendingTitle (constructor services doc) = None).
Proof.
  intros Htemplate. split; [| split].
  - unfold onConfigurationChanged. simpl. rewrite Htemplate. simpl.
    rewrite String.eqb_refl. simpl.
    destruct this; simpl in *. now rewrite Htemplate.
  - reflexivity.
  - intros doc. now repeat split.
Qed.

End NativeTitleProperties.

(** C10 on the freshly constructed part: the configuration still holds the
    template read at construction. *)
Lemma C10_same_template_again :
  let services := sample_services sample_template (Some (sample_input 1 "a.txt" false)) false in
  let this := @run reference_imports [(services, EditorsChanged)]
                (@constructor reference_imports services "untitled") in
  titleTemplate this = Some (lookup_window_title services)
  /\ @onConfigurationChanged reference_imports true services this = this.
Proof.
  intros services this.
  split; [reflexivity |].
  destruct (@C10_unchanged_template_sets_no_title reference_imports services this eq_refl)
    as [Hsame _].
  exact Hsame.
Defined.

(** ** The listeners of the active editor *)

Section ListenerProperties.

Context `{Imports}.

Lemma filter_not_in_nil {A B} (f : A -> B) `{EqDecision B} (l : list A) (bs : list B) :
  (forall a, a ∈ l -> f a ∈ bs) ->
  filter (fun a => f a ∉ bs) l = [].
Proof.
  induction l as [|a l IH]; intros Hall; [reflexivity |].
  rewrite filter_cons. case_decide as Hin.
  - exfalso. apply Hin, Hall. left.
  - apply IH. intros a' Ha'. apply Hall. now right.
Qed.

(** Disposing the old listeners leaves none attached. *)
Lemma disposeOldListeners_detaches_all this :
  tracked this ->
  attached (disposeOldListeners this) = []
  /\ activeEditorListeners (disposeOldListeners this) = [].
Proof.
  unfold tracked, disposeOldListeners, dispose. simpl. intros <-.
  split; [| reflexivity].
  apply filter_not_in_nil. intros l Hl.
  apply list_elem_of_fmap. now exists l.
Qed.

Lemma setTitle_listeners t this :
  attached (setTitle t this) = attached this
  /\ activeEditorListeners (setTitle t this) = activeEditorListeners this
  /\ next_handle (setTitle t this) = next_handle this.
Proof.
  unfold setTitle. simpl.
  destruct (title this) eqn:Htitle; simpl; now repeat split.
Qed.

Lemma applyListeners_attaches activeInput this :
  attached this = [] -> activeEditorListeners this = [] ->
  map listenerTarget (attached (applyListeners activeInput this)) = listenersFor activeInput
  /\ tracked (applyListeners activeInput this).
Proof.
  intros Hattached Hlisteners.
  unfold applyListeners, listenersFor, tracked.
  destruct activeInput as [activeInput|]; simpl.
  - destruct (instanceof_EditorInput activeInput); simpl;
      rewrite Hattached, Hlisteners; now split.
  - rewrite Hattached, Hlisteners. now split.
Qed.

Lemma onEditorsChanged_listeners services this :
  tracked this ->
  map listenerTarget (attached (onEditorsChanged services this))
  = listenersFor (activeInputOf services)
  /\ tracked (onEditorsChanged services this).
Proof.
  intros Htracked. unfold onEditorsChanged.
  destruct (disposeOldListeners_detaches_all this Htracked) as [Hattached Hlisteners].
  set (this1 := disposeOldListeners this) in *.
  destruct (setTitle_listeners (getWindowTitle services this1) this1) as (Ha & Hl & _).
  apply applyListeners_attaches; congruence.
Qed.

Lemma updateStyles_listeners services this :
  sameListeners this (updateStyles services this).
Proof.
  unfold updateStyles, super_updateStyles, sameListeners.
  now destruct (getContainer this).
Qed.

(** Only the editors-changed event attaches or detaches listeners. *)
Lemma dispatch_listeners services event this :
  isEditorsChanged (services, event) = false ->
  sameListeners this (dispatch services event this).
Proof.
  assert (Hset : forall t this', sameListeners this' (setTitle t this')).
  { intros t this'. destruct (setTitle_listeners t this') as (Ha & Hl & _). now split. }
  intros Hevent.
  destruct event; simpl in Hevent; try discriminate; simpl;
    unfold onDidChangeWorkspaceFolders, onDidChangeWorkspaceName;
    try apply Hset.
  - apply (updateStyles_listeners services (with_isInactive (Some true) this)).
  - apply (updateStyles_listeners services (with_isInactive (Some false) this)).
  - unfold onConfigurationChanged.
    destruct (_ && _); [| now split].
    apply (Hset _ (with_titleTemplate (Some (lookup_window_title services)) this)).
  - unfold onIntegrityChecked. destruct pure; simpl; [now split |].
    apply (Hset _ (with_isPure false this)).
  - apply (fire_preserves (sameListeners this)); [| now split].
    intros t this' [Ha Hl]. destruct (Hset t this') as [Ha' Hl'].
    split; congruence.
  - now split.
  - unfold createContentArea. simpl.
    destruct (pendingTitle this) as [[|c pending]|]; now split.
Qed.

Lemma lastEditorsChanged_snoc events services event :
  lastEditorsChanged (events ++ [(services, event)])
  = if isEditorsChanged (services, event) then Some services
    else lastEditorsChanged events.
Proof.
  unfold lastEditorsChanged. rewrite filter_app, filter_cons, filter_nil.
  destruct (isEditorsChanged (services, event)) eqn:Hevent; case_decide; try congruence.
  - now rewrite last_snoc.
  - now rewrite app_nil_r.
Qed.

Lemma run_listeners services0 doc events :
  let this := run events (constructor services0 doc) in
  map listenerTarget (attached this) = expectedListeners events
  /\ tracked this.
Proof.
  induction events as [|[services event] events IH] using rev_ind; [now split |].
  rewrite run_snoc. simpl fst. simpl snd.
  unfold expectedListeners. rewrite lastEditorsChanged_snoc.
  destruct IH as [Htargets Htracked].
  destruct (isEditorsChanged (services, event)) eqn:Hevent.
  - destruct event; simpl in Hevent; try discriminate. simpl.
    now apply onEditorsChanged_listeners.
  - destruct (dispatch_listeners services event
                (run events (constructor services0 doc)) Hevent) as [Ha Hl].
    unfold tracked. rewrite Ha, Hl. now split.
Qed.

(** What the code takes for the active input is the input of the editor the
    service reports, so the listeners it attaches are those of the current
    active editor. *)
Lemma listenersFor_activeInputOf services :
  listenersFor (activeInputOf services) = listenersOfActiveEditor services.
Proof.
  unfold listenersFor, activeInputOf, listenersOfActiveEditor.
  destruct (getActiveEditor services) as [activeEditor|]; [| reflexivity].
  destruct (input activeEditor) as [activeInput|]; reflexivity.
Qed.

Lemma expectedListeners_of_current_editor events :
  expectedListeners events = listenersOfCurrentEditor events.
Proof.
  unfold expectedListeners, listenersOfCurrentEditor.
  destruct (lastEditorsChanged events) as [services|]; [| reflexivity].
  apply listenersFor_activeInputOf.
Qed.

(** C5: in every run the listeners of the part that are attached are
    exactly the disposables in [activeEditorListeners], and they are the
    dirty-changed and the label-changed listener of the input of the editor
    the editor service reported as active at the last editors-changed event
    (none before the first, and none when no editor was active, it had no
    input or its input was no [EditorInput]). An editors-changed event first
    detaches all of them, then sets the title, and only then attaches the
    listeners of the new input: for an active editor with an [EditorInput]
    exactly its two listeners are attached afterwards, under two different
    disposables. *)
Theorem C5_listeners_of_the_active_editor_only services0 doc events :
  let this := run events (constructor services0 doc) in
  map listenerTarget (attached this) = listenersOfCurrentEditor events
  /\ map listener_handle (attached this) = activeEditorListeners this
  /\ forall services,
       let detached := disposeOldListeners this in
       let that := onEditorsChanged services this in
       attached detached = []
       /\ activeEditorListeners detached = []
       /\ that = applyListeners (activeInputOf services)
                   (setTitle (getWindowTitle services detached) detached)
       /\ map listenerTarget (attached that) = listenersOfActiveEditor services
       /\ map listener_handle (attached that) = activeEditorListeners that
       /\ (forall activeEditor activeInput,
             getActiveEditor services = Some activeEditor ->
             input activeEditor = Some activeInput ->
             instanceof_EditorInput activeInput = true ->
             exists dirtyHandle labelHandle,
               dirtyHandle <> labelHandle
               /\ attached that
                  = [ {| listener_handle := dirtyHandle;
                         listener_input := input_id activeInput;
                         listener_event := DidChangeDirty |};
                      {| listener_handle := labelHandle;
                         listener_input := input_id activeInput;
                         listener_event := DidChangeLabel |} ]
               /\ activeEditorListeners that = [dirtyHandle; labelHandle]).
Proof.
  intros this.
  destruct (run_listeners services0 doc events) as [Htargets Htracked].
  fold this in Htargets, Htracked.
  rewrite expectedListeners_of_current_editor in Htargets.
  split; [exact Htargets |]. split; [exact Htracked |].
  intros services detached that.
  destruct (disposeOldListeners_detaches_all this Htracked) as [Ha Hl].
  destruct (onEditorsChanged_listeners services this Htracked) as [Hnew Hnewtracked].
  fold that in Hnew, Hnewtracked.
  rewrite listenersFor_activeInputOf in Hnew.
  split; [exact Ha |]. split; [exact Hl |]. split; [reflexivity |].
  split; [exact Hnew |]. split; [exact Hnewtracked |].
  intros activeEditor activeInput Heditor Hinput Hinstance.
  subst that. unfold onEditorsChanged, activeInputOf. cbv zeta.
  rewrite Heditor, Hinput. unfold applyListeners. rewrite Hinstance.
  fold detached.
  assert (Hnone : attached (setTitle (getWindowTitle services detached) detached) = []
                  /\ activeEditorListeners
                       (setTitle (getWindowTitle services detached) detached) = []).
  { destruct (setTitle_listeners (getWindowTitle services detached) detached)
      as (Hattached & Hlisteners & _).
    rewrite Hattached, Hlisteners. now split. }
  destruct Hnone as [Hattached Hlisteners].
  revert Hattached Hlisteners.
  generalize (setTitle (getWindowTitle services detached) detached).
  intros titled Hattached Hlisteners.
  exists (next_handle titled), (S (next_handle titled)).
  split; [lia |].
  unfold listen, push_activeEditorListener. simpl.
  rewrite Hattached, Hlisteners. now split.
Qed.

End ListenerProperties.

(** C5 on two switches of the editor, from "a.txt" to "b.txt": the two
    listeners of "b.txt" are attached and held, none of "a.txt". *)
Lemma C5_second_editor_keeps_its_listeners :
  let first := sample_services sample_template (Some (sample_input 1 "a.txt" false)) false in
  let second := sample_services sample_template (Some (sample_input 2 "b.txt" true)) false in
  let events := [(first, EditorsChanged); (second, EditorsChanged)] in
  let this := @run reference_imports events (@constructor reference_imports first "untitled") in
  map listenerTarget (attached this) = [(2, DidChangeDirty); (2, DidChangeLabel)]
  /\ map listener_handle (attached this) = activeEditorListeners this.
Proof.
  intros first second events this.
  destruct (@C5_listeners_of_the_active_editor_only reference_imports
              first "untitled" events) as (Htargets & Htracked & _).
  split; [exact Htargets | exact Htracked].
Defined.

(** Switching the active editor twice leaves the two listeners of the second
    editor, and a dirty change of the first one reaches no listener. *)
Example switching_the_editor_twice :
  let first := sample_services sample_template (Some (sample_input 1 "a.txt" false)) false in
  let second := sample_services sample_template (Some (sample_input 2 "b.txt" true)) false in
  let this := @run reference_imports [(first, EditorsChanged); (second, EditorsChanged)]
                (@constructor reference_imports first "untitled") in
  attached this =
    [ {| listener_handle := 2; listener_input := 2; listener_event := DidChangeDirty |};
      {| listener_handle := 3; listener_input := 2; listener_event := DidChangeLabel |} ]
  /\ activeEditorListeners this = [2; 3]
  /\ listenersOf 1 DidChangeDirty this = [].
Proof. vm_compute. repeat split. Qed.

(** ** Focus and styles *)

Section FocusProperties.

Context `{Imports}.





End FocusProperties.


(** ** Further properties of the part *)

Section FurtherProperties.

Context `{Imports}.

(** X3: a report of a pure installation changes nothing; a report of one
    that is not pure makes the part not pure and sets the title anew,
    composed for the part that is not pure. *)
Theorem integrity_report_sets_the_title services this :
  onIntegrityChecked true services this = this
  /\ let that := onIntegrityChecked false services this in
     isPure that = false
     /\ lastTitle that = Some (getWindowTitle services (with_isPure false this))
     /\ document_title that = getWindowTitle services (with_isPure false this).
Proof.
  split; [reflexivity |].
  unfold onIntegrityChecked. simpl negb. cbv iota zeta.
  destruct (setTitle_document_title (getWindowTitle services (with_isPure false this))
              (with_isPure false this)) as [Hdoc Hlast].
  repeat split; try assumption.
  unfold setTitle. simpl. now destruct (title this).
Qed.

Lemma listenersOf_nil id event this :
  (forall l, l ∈ attached this -> listener_input l <> id) ->
  listenersOf id event this = [].
Proof.
  unfold listenersOf. generalize (attached this). intros listeners.
  induction listeners as [|l listeners IH]; intros Hall; [reflexivity |].
  rewrite filter_cons. case_decide as Hl.
  - exfalso. destruct Hl as [Hid _]. apply (Hall l); [left | exact Hid].
  - apply IH. intros l' Hl'. apply Hall. now right.
Qed.

(** X4: after an editors-changed event an input other than the active one
    has no listener of the part left: an event it fires leaves the part as
    it is. *)
Theorem other_inputs_reach_no_listener services0 doc events services id event services' :
  (forall activeInput, activeInputOf services = Some activeInput -> input_id activeInput <> id) ->
  let this := run (events ++ [(services, EditorsChanged)]) (constructor services0 doc) in
  listenersOf id event this = []
  /\ fire id event services' this = this.
Proof.
  intros Hother this.
  assert (Hnil : listenersOf id event this = []).
  { apply listenersOf_nil. intros l Hl.
    destruct (run_listeners services0 doc (events ++ [(services, EditorsChanged)]))
      as [Htargets _].
    fold this in Htargets.
    unfold expectedListeners in Htargets. rewrite lastEditorsChanged_snoc in Htargets.
    simpl in Htargets.
    assert (Htarget : listenerTarget l ∈ listenersFor (activeInputOf services)).
    { rewrite <- Htargets. apply list_elem_of_fmap. now exists l. }
    unfold listenersFor in Htarget.
    destruct (activeInputOf services) as [activeInput|] eqn:Hactive;
      [| now apply elem_of_nil in Htarget].
    destruct (instanceof_EditorInput activeInput); [| now apply elem_of_nil in Htarget].
    rewrite !elem_of_cons, elem_of_nil in Htarget.
    unfold listenerTarget in Htarget.
    destruct Htarget as [[= -> _] | [[= -> _] | []]]; now apply Hother. }
  split; [exact Hnil |].
  unfold fire. now rewrite Hnil.
Qed.

End FurtherProperties.

(** After the switch from "a.txt" to "b.txt", a dirty change of "a.txt"
    leaves the part as it is. *)
Lemma dirty_change_of_the_previous_editor :
  let first := sample_services sample_template (Some (sample_input 1 "a.txt" false)) false in
  let second := sample_services sample_template (Some (sample_input 2 "b.txt" false)) false in
  let changed := sample_services sample_template (Some (sample_input 2 "b.txt" false)) true in
  let this := @run reference_imports ([(first, EditorsChanged)] ++ [(second, EditorsChanged)])
                (@constructor reference_imports first "untitled") in
  (forall activeInput, activeInputOf second = Some activeInput -> input_id activeInput <> 1)
  /\ @fire reference_imports 1 DidChangeDirty changed this = this.
Proof.
  intros first second changed this.
  assert (Hother : forall activeInput,
            activeInputOf second = Some activeInput -> input_id activeInput <> 1)
    by (intros activeInput [= <-]; discriminate).
  split; [exact Hother |].
  destruct (@other_inputs_reach_no_listener reference_imports first "untitled"
              [(first, EditorsChanged)] second 1 DidChangeDirty changed Hother)
    as [_ Hfire].
  exact Hfire.
Defined.

(** ** The actions of the context menu, for every path *)

Lemma app_cons c (s t : string) : String c s +:+ t = String c (s +:+ t).
Proof. reflexivity. Qed.

Lemma app_empty_r (s : string) : s +:+ "" = s.
Proof. induction s as [|c s IH]; [reflexivity |]. now rewrite app_cons, IH. Qed.

Lemma app_associative (s t u : string) : (s +:+ t) +:+ u = s +:+ (t +:+ u).
Proof. induction s as [|c s IH]; [reflexivity |]. now rewrite !app_cons, IH. Qed.

Lemma rev_onto_app acc s : Js.rev_onto acc s = Js.rev_onto "" s +:+ acc.
Proof.
  revert acc. induction s as [|c s IH]; intros acc; [reflexivity |].
  simpl. rewrite (IH (String c acc)), (IH (String c "")).
  now rewrite app_associative.
Qed.

Lemma rev_cons c s : Js.rev (String c s) = Js.rev s +:+ String c "".
Proof. unfold Js.rev. simpl. apply rev_onto_app. Qed.

Lemma prefix_sep c rest :
  String.prefix paths.sep (String c rest) = paths.is_sep c.
Proof.
  unfold paths.sep, paths.is_sep.
  change (String.prefix "/" (String c rest))
    with (match ascii_dec "/" c with
          | left _ => String.prefix "" rest
          | right _ => false
          end).
  destruct (ascii_dec "/" c) as [<- | Hother].
  - now destruct rest.
  - symmetry. apply Ascii.eqb_neq. congruence.
Qed.

(** One step of the scan of [split] at the separator of paths. *)
Lemma split_scan_cons cur c rest :
  Js.split_scan paths.sep 0 cur (String c rest)
  = if paths.is_sep c
    then Js.rev cur :: Js.split_scan paths.sep 0 "" rest
    else Js.split_scan paths.sep 0 (String c cur) rest.
Proof.
  change (Js.split_scan paths.sep 0 cur (String c rest))
    with (if String.prefix paths.sep (String c rest)
          then Js.rev cur :: Js.split_scan paths.sep 0 "" rest
          else Js.split_scan paths.sep 0 (String c cur) rest).
  now rewrite prefix_sep.
Qed.

Lemma split_scan_length cur path :
  length (Js.split_scan paths.sep 0 cur path) = S (separators path).
Proof.
  revert cur. induction path as [|c rest IH]; intros cur; [reflexivity |].
  rewrite split_scan_cons. simpl separators.
  destruct (paths.is_sep c); simpl; now rewrite IH.
Qed.

Lemma join_cons sep x segments :
  segments <> [] -> Js.join sep (x :: segments) = x +:+ sep +:+ Js.join sep segments.
Proof. destruct segments; [congruence | reflexivity]. Qed.

Lemma split_scan_not_nil cur path : Js.split_scan paths.sep 0 cur path <> [].
Proof.
  intros Hnil. pose proof (split_scan_length cur path) as Hlength.
  now rewrite Hnil in Hlength.
Qed.

(** Joining what [split] cut gives the string back. *)
Lemma split_scan_join cur path :
  Js.join paths.sep (Js.split_scan paths.sep 0 cur path) = Js.rev cur +:+ path.
Proof.
  revert cur. induction path as [|c rest IH]; intros cur.
  - simpl. now rewrite app_empty_r.
  - rewrite split_scan_cons. destruct (paths.is_sep c) eqn:Hsep.
    + rewrite join_cons by apply split_scan_not_nil. rewrite IH.
      apply Ascii.eqb_eq in Hsep. subst c. reflexivity.
    + rewrite IH, rev_cons, app_associative. reflexivity.
Qed.

Lemma split_join path : Js.join paths.sep (Js.split path paths.sep) = path.
Proof. apply (split_scan_join "" path). Qed.

Lemma split_length path : length (Js.split path paths.sep) = S (separators path).
Proof. apply (split_scan_length "" path). Qed.

(** The segments up to any index join to a prefix of the joined whole. *)
Lemma join_take_prefix sep k : forall segments,
  exists rest, Js.join sep segments = Js.join sep (take k segments) +:+ rest.
Proof.
  induction k as [|k IH]; intros segments.
  - exists (Js.join sep segments). now rewrite take_0.
  - destruct segments as [|x segments]; [now exists "" |].
    rewrite firstn_cons.
    destruct segments as [|y segments].
    + exists "". rewrite take_nil. simpl. now rewrite app_empty_r.
    + destruct (IH (y :: segments)) as [rest Hrest].
      destruct k as [|k].
      * rewrite take_0. exists (sep +:+ Js.join sep (y :: segments)).
        now rewrite join_cons by discriminate.
      * exists rest. rewrite (join_cons sep x (y :: segments)) by discriminate.
        rewrite Hrest. rewrite firstn_cons.
        rewrite (join_cons sep x (y :: take k segments)) by discriminate.
        now rewrite !app_associative.
Qed.

Section MenuProperties.

Context `{Imports}.

Lemma contextMenuLoop_elem segments a : forall i,
  a ∈ contextMenuLoop segments i ->
  exists j, 1 <= j <= i /\ a = contextMenuAction segments j.
Proof.
  induction i as [|i IH]; intros Ha; [now apply elem_of_nil in Ha |].
  simpl in Ha. apply elem_of_cons in Ha as [-> | Ha].
  - exists (S i). split; [lia | reflexivity].
  - destruct (IH Ha) as (j & Hj & ->). exists j. split; [lia | reflexivity].
Qed.

(** X5: for every non-empty represented file name, the first action of the
    menu is the one of the file itself: it reveals the represented file
    name as it is, under its base name, or under the separator when the
    base name is empty. *)
Theorem first_action_reveals_the_represented_file name :
  Js.nonempty name = true ->
  exists others,
    getContextMenuActions (Some name)
    = new_ShowItemInFolderAction name (Js.or_else (paths_basename name) paths.sep)
      :: others.
Proof.
  intros Hname. unfold getContextMenuActions. rewrite Hname.
  cbv zeta. rewrite split_length. simpl contextMenuLoop.
  eexists. f_equal.
  unfold contextMenuAction. rewrite (split_scan_length "" name), Nat.eqb_refl.
  unfold Js.slice0. rewrite take_ge by (rewrite split_scan_length; lia).
  now rewrite (split_scan_join "" name).
Qed.

Lemma or_else_nonempty a b :
  Js.nonempty b = true -> Js.nonempty (Js.or_else a b) = true.
Proof. unfold Js.or_else. now destruct (Js.nonempty a) eqn:Ha. Qed.

Lemma contextMenuAction_label segments i :
  Js.nonempty (action_label (contextMenuAction segments i)) = true.
Proof. now apply or_else_nonempty. Qed.

Lemma contextMenuAction_path segments i :
  exists k, action_path (contextMenuAction segments i)
            = Js.join paths.sep (take k segments).
Proof.
  exists (if Nat.eqb i (length segments) then i else S i). reflexivity.
Qed.

(** X6: every action of the menu has a label that is not empty, and reveals
    a path that the represented file name starts with. *)
Theorem every_action_reveals_a_prefix_under_a_label representedFileName_ a :
  a ∈ getContextMenuActions representedFileName_ ->
  Js.nonempty (action_label a) = true
  /\ exists name rest,
       representedFileName_ = Some name /\ name = action_path a +:+ rest.
Proof.
  unfold getContextMenuActions.
  destruct representedFileName_ as [name|]; [| intros Ha; now apply elem_of_nil in Ha].
  destruct (Js.nonempty name); [| intros Ha; now apply elem_of_nil in Ha].
  cbv zeta. intros Ha.
  apply contextMenuLoop_elem in Ha as (j & _ & ->).
  split; [apply contextMenuAction_label |].
  destruct (contextMenuAction_path (Js.split name paths.sep) j) as [k ->].
  destruct (join_take_prefix paths.sep k (Js.split name paths.sep)) as [rest Hrest].
  exists name, rest. split; [reflexivity |].
  now rewrite <- Hrest, split_join.
Qed.

(** X1: the menu has one action more than the represented file name has
    separators. *)
Theorem one_action_more_than_separators name :
  Js.nonempty name = true ->
  length (getContextMenuActions (Some name)) = S (separators name).
Proof.
  intros Hname. unfold getContextMenuActions. rewrite Hname.
  cbv zeta. now rewrite contextMenuLoop_length, split_length.
Qed.

End MenuProperties.

(** X5 on "/a/b/c.txt": the first action reveals the file under "c.txt". *)
Lemma first_action_of_an_absolute_path :
  Js.nonempty "/a/b/c.txt" = true
  /\ exists others,
       @getContextMenuActions reference_imports (Some "/a/b/c.txt")
       = new_ShowItemInFolderAction "/a/b/c.txt" "c.txt" :: others.
Proof.
  split; [reflexivity |].
  exact (@first_action_reveals_the_represented_file reference_imports "/a/b/c.txt" eq_refl).
Defined.

(** X6 on the root entry of "/a/b": labelled with the separator, it reveals
    "/a", which "/a/b" starts with. *)
Lemma root_entry_of_an_absolute_path :
  let a := new_ShowItemInFolderAction "/a" "/" in
  a ∈ @getContextMenuActions reference_imports (Some "/a/b")
  /\ Js.nonempty (action_label a) = true
  /\ exists name rest, Some "/a/b" = Some name /\ name = action_path a +:+ rest.
Proof.
  intros a.
  assert (Ha : a ∈ @getContextMenuActions reference_imports (Some "/a/b"))
    by (vm_compute; repeat constructor).
  split; [exact Ha |].
  exact (@every_action_reveals_a_prefix_under_a_label reference_imports (Some "/a/b") a Ha).
Defined.

(** X1 on "/a/b/c.txt": three separators, four actions. *)
Lemma context_menu_of_an_absolute_path :
  Js.nonempty "/a/b/c.txt" = true
  /\ length (@getContextMenuActions reference_imports (Some "/a/b/c.txt")) = 4.
Proof.
  split; [reflexivity |].
  exact (@one_action_more_than_separators reference_imports "/a/b/c.txt" eq_refl).
Defined.

(** ** The mouse on the title *)

Section MouseProperties.

Context `{Imports}.

Lemma getContextMenuActions_nil representedFileName_ :
  getContextMenuActions representedFileName_ = []
  <-> Js.truthy representedFileName_ = false.
Proof.
  unfold getContextMenuActions, Js.truthy.
  destruct representedFileName_ as [name|]; [| now split].
  destruct (Js.nonempty name) eqn:Hname; [| now split].
  cbv zeta. rewrite split_length. simpl. split; discriminate.
Qed.

(** [onContextMenu] shows a menu exactly for a non-empty represented file
    name. *)
Lemma onContextMenu_shown e this :
  onContextMenu e this
  = if Js.truthy (representedFileName this)
    then Some {| getAnchor := (posx e, posy e);
                 getActions := getContextMenuActions (representedFileName this);
                 disposedOnHide := getContextMenuActions (representedFileName this) |}
    else None.
Proof.
  unfold onContextMenu.
  pose proof (getContextMenuActions_nil (representedFileName this)) as Hnil.
  destruct (getContextMenuActions (representedFileName this)) as [|a actions];
    destruct (Js.truthy (representedFileName this)); simpl; try reflexivity.
  - destruct Hnil as [Hnil _]. discriminate (Hnil eq_refl).
  - destruct Hnil as [_ Hnil]. discriminate (Hnil eq_refl).
Qed.

(** X7: the listener on the title shows the context menu exactly when the
    event is a context-menu event or has the meta key down and a non-empty
    represented file name is set; the menu is anchored at the mouse position
    and holds the actions of [getContextMenuActions], which it disposes when
    hidden. The event is stopped in the first case, menu or not, and left
    alone otherwise. *)
Theorem title_mouse_event_shows_the_menu e this :
  let trigger := match event_type e with
                 | CONTEXT_MENU => true
                 | MOUSE_DOWN => metaKey e
                 end in
  let handled := onTitleMouseEvent e this in
  stopped handled = trigger
  /\ (is_Some (shown handled)
      <-> trigger = true /\ Js.truthy (representedFileName this) = true)
  /\ (forall menu, shown handled = Some menu ->
        getAnchor menu = (posx e, posy e)
        /\ getActions menu = getContextMenuActions (representedFileName this)
        /\ disposedOnHide menu = getActions menu
        /\ getActions menu <> []).
Proof.
  intros trigger handled. subst trigger handled.
  unfold onTitleMouseEvent. rewrite onContextMenu_shown.
  assert (Hactions : Js.truthy (representedFileName this) = true ->
                     getContextMenuActions (representedFileName this) <> []).
  { intros Htruthy Hnil. apply getContextMenuActions_nil in Hnil. congruence. }
  destruct (event_type e), (metaKey e),
    (Js.truthy (representedFileName this)) eqn:Htruthy; simpl;
    (split; [reflexivity |]); split;
    first
      [ (* a menu is shown *)
        split; [intros _; now split | intros _; eexists; reflexivity]
      | (* none is *)
        split; [intros [menu Hmenu]; discriminate | intros [Htrigger Hname]; discriminate]
      | intros menu Hmenu; try discriminate;
        injection Hmenu as <-; simpl; repeat split; now apply Hactions ].
Qed.

End MouseProperties.

(** ** More on the composed title *)

Lemma nonempty_app (s t : string) :
  Js.nonempty (s +:+ t) = Js.nonempty s || Js.nonempty t.
Proof. destruct s; [now destruct t | reflexivity]. Qed.

Lemma nonempty_empty (s : string) : Js.nonempty s = false <-> s = "".
Proof. destruct s; simpl; split; congruence. Qed.

Section MoreComposerProperties.

Context `{Imports}.

(** X8: the window title is empty only if the template resolves to the
    empty string, the application has no long name, the part is pure and
    the window is no extension development host; with a long name of the
    application there is always a title. *)
Theorem window_title_is_empty_only_without_appName services this :
  getWindowTitle services this = ""
  <-> doGetWindowTitle services this = ""
      /\ appNameLong services = ""
      /\ isPure this = true
      /\ isExtensionDevelopment services = false.
Proof.
  rewrite <- !nonempty_empty. unfold getWindowTitle.
  destruct (isPure this), (isExtensionDevelopment services);
    rewrite ?nonempty_app; simpl;
    destruct (Js.nonempty (doGetWindowTitle services this)) eqn:Htitle;
    rewrite ?Htitle; simpl;
    destruct (Js.nonempty (appNameLong services)) eqn:Happ; simpl;
    rewrite ?orb_true_r; intuition congruence.
Qed.

(** X9: a folder that applies and has a path gives a folder name that is
    not empty: where the path has no base name (the root), the name is the
    path itself. *)
Theorem folderName_falls_back_to_the_path services folder :
  titleFolder services = Some folder ->
  Js.nonempty (fsPath folder) = true ->
  Js.nonempty (folderName services) = true
  /\ (paths_basename (fsPath folder) = "" -> folderName services = fsPath folder).
Proof.
  intros Hfolder Hpath. unfold folderName. rewrite Hfolder. split.
  - unfold Js.or_else.
    now destruct (Js.nonempty (paths_basename (fsPath folder))) eqn:Hbase.
  - intros Hbase. now rewrite Hbase.
Qed.

Lemma getWindowTitle_setTitle services t this :
  getWindowTitle services (setTitle t this) = getWindowTitle services this.
Proof.
  unfold getWindowTitle, doGetWindowTitle, setTitle.
  destruct this as [? [element|] ? ? ? ? ? ? ? ? ? ? ?]; reflexivity.
Qed.

(** X10: a title set replaces the one set before it in every field of the
    part (only the history of the calls tells them apart), and the composed
    title does not depend on the title set: refreshing the title twice
    leaves the part as refreshing it once does. *)
Theorem setTitle_overwrites_the_previous_title services t u this :
  withoutHistory (setTitle t (setTitle u this)) = withoutHistory (setTitle t this)
  /\ getWindowTitle services (setTitle u this) = getWindowTitle services this
  /\ withoutHistory (onDidChangeWorkspaceName services
                       (onDidChangeWorkspaceName services this))
     = withoutHistory (onDidChangeWorkspaceName services this).
Proof.
  assert (Hover : forall t' u' that,
            withoutHistory (setTitle t' (setTitle u' that))
            = withoutHistory (setTitle t' that)).
  { intros t' u' that. unfold withoutHistory, setTitle.
    destruct that as [? [element|] ? ? ? ? ? ? ? ? ? ? ?]; reflexivity. }
  split; [apply Hover |]. split; [apply getWindowTitle_setTitle |].
  unfold onDidChangeWorkspaceName.
  rewrite getWindowTitle_setTitle. apply Hover.
Qed.

End MoreComposerProperties.

(** X9 on the root folder: its path has no base name, and is its name. *)
Lemma folderName_of_the_root :
  let services :=
    {| getActiveEditorInput := None;
       getActiveEditor := None;
       getWorkspace := {| name := "root"; folders := [ {| fsPath := "/" |} ];
                          configuration := None |};
       getWorkbenchState := FOLDER;
       getWorkspaceFolder := fun _ => None;
       appNameLong := "Editor";
       isExtensionDevelopment := false;
       lookup_window_title := sample_template;
       getColor := sample_theme false |} in
  @titleFolder reference_imports services = Some {| fsPath := "/" |}
  /\ Js.nonempty "/" = true
  /\ @folderName reference_imports services = "/".
Proof.
  intros services.
  split; [reflexivity |]. split; [reflexivity |].
  destruct (@folderName_falls_back_to_the_path reference_imports services
              {| fsPath := "/" |} eq_refl eq_refl) as [_ Hroot].
  exact (Hroot eq_refl).
Defined.

(** ** What a run keeps *)

Section RunProperties.

Context `{Imports}.

(** The fields no title, style or listener touches. *)
Lemma setTitle_settings t this :
  isPure (setTitle t this) = isPure this
  /\ titleTemplate (setTitle t this) = titleTemplate this
  /\ representedFileName (setTitle t this) = representedFileName this
  /\ window_representedFilename (setTitle t this) = window_representedFilename this.
Proof.
  unfold setTitle. destruct this as [? [element|] ? ? ? ? ? ? ? ? ? ? ?]; now repeat split.
Qed.

Lemma updateStyles_settings services this :
  isPure (updateStyles services this) = isPure this
  /\ titleTemplate (updateStyles services this) = titleTemplate this
  /\ representedFileName (updateStyles services this) = representedFileName this
  /\ window_representedFilename (updateStyles services this)
     = window_representedFilename this.
Proof.
  unfold updateStyles, super_updateStyles. now destruct (getContainer this).
Qed.

Lemma applyListeners_settings activeInput this :
  isPure (applyListeners activeInput this) = isPure this
  /\ titleTemplate (applyListeners activeInput this) = titleTemplate this
  /\ representedFileName (applyListeners activeInput this) = representedFileName this
  /\ window_representedFilename (applyListeners activeInput this)
     = window_representedFilename this.
Proof.
  unfold applyListeners. destruct activeInput as [activeInput|]; [| now repeat split].
  now destruct (instanceof_EditorInput activeInput).
Qed.

Lemma createContentArea_settings parent this :
  isPure (createContentArea parent this) = isPure this
  /\ titleTemplate (createContentArea parent this) = titleTemplate this
  /\ representedFileName (createContentArea parent this) = representedFileName this
  /\ window_representedFilename (createContentArea parent this)
     = window_representedFilename this.
Proof.
  unfold createContentArea. simpl.
  now destruct (pendingTitle this) as [[|c pending]|].
Qed.

(** What one event does to the four settings. *)
Lemma dispatch_settings services event this :
  isPure (dispatch services event this)
  = isPure this && negb (reportsNotPure (services, event))
  /\ titleTemplate (dispatch services event this)
     = (if isConfigurationUpdate (services, event)
        then Some (lookup_window_title services) else titleTemplate this)
  /\ representedFileName (dispatch services event this)
     = match event with
       | CallSetRepresentedFilename path => Some path
       | _ => representedFileName this
       end
  /\ window_representedFilename (dispatch services event this)
     = match event with
       | CallSetRepresentedFilename path => Some path
       | _ => window_representedFilename this
       end.
Proof.
  assert (Hset : forall t that,
            isPure (setTitle t that) = isPure that && true
            /\ titleTemplate (setTitle t that) = titleTemplate that
            /\ representedFileName (setTitle t that) = representedFileName that
            /\ window_representedFilename (setTitle t that)
               = window_representedFilename that).
  { intros t that. rewrite andb_true_r. apply setTitle_settings. }
  destruct event; simpl;
    unfold onDidChangeWorkspaceFolders, onDidChangeWorkspaceName, reportsNotPure,
      isConfigurationUpdate; simpl; try apply Hset.
  - rewrite andb_true_r.
    apply (updateStyles_settings services (with_isInactive (Some true) this)).
  - rewrite andb_true_r.
    apply (updateStyles_settings services (with_isInactive (Some false) this)).
  - rewrite andb_true_r, onConfigurationChanged_unfold. cbv zeta.
    destruct (true && negb _); [| now repeat split].
    destruct (setTitle_settings
                (getWindowTitle services
                   (with_titleTemplate (Some (lookup_window_title services)) this))
                (with_titleTemplate (Some (lookup_window_title services)) this))
      as (-> & -> & -> & ->).
    now repeat split.
  - rewrite andb_true_r. unfold onEditorsChanged.
    destruct (applyListeners_settings (activeInputOf services)
                (setTitle (getWindowTitle services (disposeOldListeners this))
                   (disposeOldListeners this))) as (-> & -> & -> & ->).
    destruct (setTitle_settings (getWindowTitle services (disposeOldListeners this))
                (disposeOldListeners this)) as (-> & -> & -> & ->).
    now repeat split.
  - unfold onIntegrityChecked. destruct pure; simpl.
    + rewrite andb_true_r. now repeat split.
    + rewrite andb_false_r.
      destruct (setTitle_settings (getWindowTitle services (with_isPure false this))
                  (with_isPure false this)) as (-> & -> & -> & ->).
      now repeat split.
  - rewrite andb_true_r.
    apply (fire_preserves
             (fun that => isPure that = isPure this
                          /\ titleTemplate that = titleTemplate this
                          /\ representedFileName that = representedFileName this
                          /\ window_representedFilename that
                             = window_representedFilename this));
      [| now repeat split].
    intros t that (<- & <- & <- & <-). apply setTitle_settings.
  - rewrite andb_true_r. now repeat split.
  - rewrite andb_true_r. apply createContentArea_settings.
Qed.

Lemma existsb_snoc {A} (f : A -> bool) l x :
  existsb f (l ++ [x]) = existsb f l || f x.
Proof. rewrite existsb_app. simpl. now rewrite orb_false_r. Qed.

(** X11: a part is pure until the integrity check reports otherwise, and
    not pure ever after: after any run it is pure exactly if no event of the
    run reported it not pure. *)
Theorem part_is_pure_until_reported_otherwise services0 doc events :
  isPure (run events (constructor services0 doc))
  = negb (existsb reportsNotPure events).
Proof.
  induction events as [|[services event] events IH] using rev_ind; [reflexivity |].
  rewrite run_snoc, existsb_snoc. simpl fst. simpl snd.
  destruct (dispatch_settings services event (run events (constructor services0 doc)))
    as (-> & _).
  rewrite IH. now rewrite negb_orb.
Qed.

Lemma lastConfiguredTemplate_snoc services0 events services event :
  lastConfiguredTemplate services0 (events ++ [(services, event)])
  = if isConfigurationUpdate (services, event) then lookup_window_title services
    else lastConfiguredTemplate services0 events.
Proof.
  unfold lastConfiguredTemplate. rewrite filter_app, filter_cons, filter_nil.
  destruct (isConfigurationUpdate (services, event)) eqn:Hevent; case_decide;
    try congruence.
  - now rewrite last_snoc.
  - now rewrite app_nil_r.
Qed.

(** X12: from construction on the template of the title is defined, and it
    is the value of [window.title] the part was given last: at the last
    configuration update, or at construction when there was none. *)
Theorem template_is_the_one_configured_last services0 doc events :
  titleTemplate (run events (constructor services0 doc))
  = Some (lastConfiguredTemplate services0 events).
Proof.
  induction events as [|[services event] events IH] using rev_ind; [reflexivity |].
  rewrite run_snoc, lastConfiguredTemplate_snoc. simpl fst. simpl snd.
  destruct (dispatch_settings services event (run events (constructor services0 doc)))
    as (_ & -> & _).
  rewrite IH. now destruct (isConfigurationUpdate (services, event)).
Qed.

Lemma lastRepresentedFilename_snoc events services event :
  lastRepresentedFilename (events ++ [(services, event)])
  = match event with
    | CallSetRepresentedFilename path => Some path
    | _ => lastRepresentedFilename events
    end.
Proof. unfold lastRepresentedFilename. now rewrite foldl_app. Qed.

(** X2: the represented file name the part keeps for its context menu is
    always the one the window service was told, the path of the last call of
    [setRepresentedFilename]; no other event changes it. *)
Theorem represented_file_is_the_one_set_last services0 doc events :
  let this := run events (constructor services0 doc) in
  representedFileName this = lastRepresentedFilename events
  /\ window_representedFilename this = representedFileName this.
Proof.
  induction events as [|[services event] events IH] using rev_ind; [now split |].
  cbv zeta in *. rewrite run_snoc, lastRepresentedFilename_snoc. simpl fst. simpl snd.
  destruct (dispatch_settings services event (run events (constructor services0 doc)))
    as (_ & _ & -> & ->).
  destruct IH as [<- ->]. now destruct event.
Qed.

(** X13: once a title was set, the title of the window and the title of the
    part agree: in a run that creates the content area at most once the
    title element shows the title of the window, and while there is no
    element the buffer holds it. *)
Theorem window_and_part_show_the_same_title services0 doc events :
  createdAtMostOnce events = true ->
  setTitle_calls (run events (constructor services0 doc)) <> [] ->
  let this := run events (constructor services0 doc) in
  match title this with
  | Some element => textContent element = document_title this
  | None => pendingTitle this = Some (document_title this)
  end.
Proof.
  intros Honce Hcalls this.
  assert (Hshown : titleShown this).
  { apply run_titleShown; [reflexivity |].
    simpl. unfold createdAtMostOnce in Honce. now apply Nat.leb_le in Honce. }
  assert (Hnative : nativeTitleSet doc this).
  { apply run_nativeTitleSet. reflexivity. }
  unfold titleShown, nativeTitleSet, lastTitle in *. fold this in Hcalls.
  destruct (setTitle_calls this) as [|t calls]; [congruence |].
  simpl in *. rewrite Hnative.
  destruct (title this); assumption.
Qed.

End RunProperties.

(** X13 on a run that sets a title, creates the content area and sets
    another title. *)
Lemma window_and_part_after_a_run :
  let services := sample_services sample_template (Some (sample_input 1 "a.txt" true)) false in
  let events := [ (services, CreationJoined);
                  (services, CallCreateContentArea {| style := ∅ |});
                  (services, EditorsChanged) ] in
  let this := @run reference_imports events (@constructor reference_imports services "untitled") in
  createdAtMostOnce events = true
  /\ setTitle_calls this <> []
  /\ match title this with
     | Some element => textContent element = document_title this
     | None => pendingTitle this = Some (document_title this)
     end.
Proof.
  intros services events this.
  assert (Hcalls : setTitle_calls this <> []) by (vm_compute; discriminate).
  split; [reflexivity |]. split; [exact Hcalls |].
  pose proof (@window_and_part_show_the_same_title reference_imports
                services "untitled" events eq_refl Hcalls) as Hsame.
  exact Hsame.
Defined.

(** ** One callback per event of the active editor *)

Section CallbackProperties.

Context `{Imports}.

Lemma listenersOf_two id event (l1 l2 : Listener) this :
  attached this = [l1; l2] ->
  listenerTarget l1 = (id, DidChangeDirty) ->
  listenerTarget l2 = (id, DidChangeLabel) ->
  listenersOf id event this = [match event with
                               | DidChangeDirty => l1
                               | DidChangeLabel => l2
                               end].
Proof.
  unfold listenersOf, listenerTarget. intros -> [= Hid1 Hevent1] [= Hid2 Hevent2].
  rewrite !filter_cons, filter_nil, Hid1, Hid2, Hevent1, Hevent2.
  destruct event; simpl; repeat case_decide; intuition congruence.
Qed.

(** X14: while an [EditorInput] is the active input, each dirty change and
    each label change it fires runs exactly one callback of the part, which
    sets the title once: however often the editors changed before, no
    callback runs twice. *)
Theorem active_editor_event_sets_the_title_once
    services0 doc events services activeInput event services' :
  lastEditorsChanged events = Some services ->
  activeInputOf services = Some activeInput ->
  instanceof_EditorInput activeInput = true ->
  let this := run events (constructor services0 doc) in
  length (listenersOf (input_id activeInput) event this) = 1
  /\ fire (input_id activeInput) event services' this
     = setTitle (getWindowTitle services' this) this
  /\ setTitle_calls (fire (input_id activeInput) event services' this)
     = getWindowTitle services' this :: setTitle_calls this.
Proof.
  intros Hlast Hactive Hinstance this.
  destruct (run_listeners services0 doc events) as [Htargets _].
  fold this in Htargets.
  unfold expectedListeners, listenersFor in Htargets.
  rewrite Hlast, Hactive, Hinstance in Htargets.
  destruct (attached this) as [|l1 [|l2 [|l3 others]]] eqn:Hattached;
    try discriminate.
  simpl in Htargets. injection Htargets as Hinput1 Hevent1 Hinput2 Hevent2.
  assert (Htarget1 : listenerTarget l1 = (input_id activeInput, DidChangeDirty))
    by (unfold listenerTarget; congruence).
  assert (Htarget2 : listenerTarget l2 = (input_id activeInput, DidChangeLabel))
    by (unfold listenerTarget; congruence).
  assert (Hfire : fire (input_id activeInput) event services' this
                  = setTitle (getWindowTitle services' this) this).
  { unfold fire.
    now rewrite (listenersOf_two _ event l1 l2 this Hattached Htarget1 Htarget2). }
  split; [| split].
  - now rewrite (listenersOf_two _ event l1 l2 this Hattached Htarget1 Htarget2).
  - exact Hfire.
  - rewrite Hfire. unfold setTitle. simpl. now destruct (title this).
Qed.

End CallbackProperties.

(** X14 after three changes of the editors: a dirty change of the active
    input sets the title once. *)
Lemma dirty_change_after_three_switches :
  let first := sample_services sample_template (Some (sample_input 1 "a.txt" false)) false in
  let second := sample_services sample_template (Some (sample_input 2 "b.txt" false)) false in
  let changed := sample_services sample_template (Some (sample_input 2 "b.txt" true)) false in
  let events := [(first, EditorsChanged); (second, EditorsChanged); (second, EditorsChanged)] in
  let this := @run reference_imports events (@constructor reference_imports first "untitled") in
  lastEditorsChanged events = Some second
  /\ @setTitle_calls (@fire reference_imports (input_id (sample_input 2 "b.txt" false))
                        DidChangeDirty changed this)
     = @getWindowTitle reference_imports changed this :: setTitle_calls this.
Proof.
  intros first second changed events this.
  split; [reflexivity |].
  destruct (@active_editor_event_sets_the_title_once reference_imports first "untitled"
              events second (sample_input 2 "b.txt" false) DidChangeDirty changed
              eq_refl eq_refl eq_refl) as (_ & _ & Hcalls).
  exact Hcalls.
Defined.

(** ** Styles do not add up *)

Section StyleProperties.

Context `{Imports}.

Lemma set_style_twice services services' b b' this :
  updateStyles services
    (with_isInactive (Some b) (updateStyles services' (with_isInactive (Some b') this)))
  = updateStyles services (with_isInactive (Some b) this).
Proof.
  unfold updateStyles, super_updateStyles, getContainer, inactive, set_style.
  destruct this as [[[styles]|] ? ? ? ? ? ? ? ? ? ? ? ?];
    unfold with_titleContainer, with_isInactive; simpl; [| reflexivity].
  do 3 f_equal.
  apply map_eq. intros key.
  rewrite !lookup_insert. repeat case_decide; reflexivity.
Qed.

(** X15: the styles of the title bar depend on the last focus event only:
    a focus undoes a blur and a blur a focus, also across a change of the
    theme, and a repeated blur or focus is the same as one. *)
Theorem last_focus_event_decides_the_styles services services' this :
  onFocus services (onBlur services' this) = onFocus services this
  /\ onBlur services (onFocus services' this) = onBlur services this
  /\ onBlur services (onBlur services' this) = onBlur services this
  /\ onFocus services (onFocus services' this) = onFocus services this.
Proof.
  unfold onFocus, onBlur. repeat split; apply set_style_twice.
Qed.

End StyleProperties.

(** ** No stale title *)

Section StaleProperties.
Context `{Imports}.

Lemma getWindowTitle_settings services this that :
  isPure that = isPure this -> titleTemplate that = titleTemplate this ->
  getWindowTitle services that = getWindowTitle services this.
Proof.
  unfold getWindowTitle, doGetWindowTitle. now intros -> ->.
Qed.

Lemma refresh_upToDate services this :
  upToDate services (setTitle (getWindowTitle services this) this).
Proof.
  unfold upToDate. rewrite getWindowTitle_setTitle.
  now destruct (setTitle_document_title (getWindowTitle services this) this).
Qed.

Lemma strict_eq_true a b : Js.strict_eq a b = true -> a = b.
Proof.
  destruct a as [x|], b as [y|]; simpl; try discriminate; [| reflexivity].
  intros Heq. apply String.eqb_eq in Heq. now subst.
Qed.

Lemma fire_upToDate services id event this :
  upToDate services this \/ listenersOf id event this <> [] ->
  upToDate services (fire id event services this).
Proof.
  unfold fire. generalize (listenersOf id event this). intros listeners.
  revert this. induction listeners as [|l listeners IH]; intros this Hthis.
  - destruct Hthis as [Hthis | Hnil]; [exact Hthis | congruence].
  - simpl. apply IH. left. apply refresh_upToDate.
Qed.

(** X16: no event of the workbench leaves a stale title. An event that
    refreshes the title (a change of the editors, of the folders or of the
    name of the workspace, the end of the creation, a report of an
    installation that is not pure, a configuration update with another
    template, an event of an input that has a listener) leaves the title of
    the window equal to the title composed from the part as it is after the
    event. Every other event but a call of [setTitle] keeps a title that was
    up to date so. *)
Theorem workbench_events_leave_no_stale_title services event this :
  let that := dispatch services event this in
  (refreshesTitle services event this = true -> upToDate services that)
  /\ (isSetTitle event = false -> upToDate services this -> upToDate services that).
Proof.
  intros that. subst that.
  assert (Hkeep : forall that,
            isPure that = isPure this -> titleTemplate that = titleTemplate this ->
            document_title that = document_title this ->
            upToDate services this -> upToDate services that).
  { unfold upToDate. intros that Hpure Htemplate -> ->. symmetry.
    now apply getWindowTitle_settings. }
  destruct event; cbn [dispatch refreshesTitle isSetTitle];
    unfold onDidChangeWorkspaceFolders, onDidChangeWorkspaceName;
    try (split; intros; apply refresh_upToDate).
  - (* blur *)
    split; [discriminate |]. intros _. unfold onBlur.
    destruct (updateStyles_settings services (with_isInactive (Some true) this))
      as (Hpure & Htemplate & _).
    destruct (updateStyles_title services (with_isInactive (Some true) this))
      as (_ & _ & _ & Hdoc).
    apply Hkeep; [exact Hpure | exact Htemplate | exact Hdoc].
  - split; [discriminate |]. intros _. unfold onFocus.
    destruct (updateStyles_settings services (with_isInactive (Some false) this))
      as (Hpure & Htemplate & _).
    destruct (updateStyles_title services (with_isInactive (Some false) this))
      as (_ & _ & _ & Hdoc).
    apply Hkeep; [exact Hpure | exact Htemplate | exact Hdoc].
  - (* configuration *)
    rewrite onConfigurationChanged_unfold. cbv zeta. rewrite andb_true_l.
    destruct (Js.strict_eq (titleTemplate this) (Some (lookup_window_title services)))
      eqn:Hsame; simpl.
    + split; [discriminate |]. intros _. apply strict_eq_true in Hsame.
      apply Hkeep; [reflexivity | now rewrite Hsame | reflexivity].
    + split; intros; apply refresh_upToDate.
  - (* editors *)
    assert (Hnow : upToDate services (onEditorsChanged services this)).
    { unfold onEditorsChanged. cbv zeta.
      pose proof (refresh_upToDate services (disposeOldListeners this)) as Hfresh.
      revert Hfresh. generalize (setTitle (getWindowTitle services (disposeOldListeners this))
                                   (disposeOldListeners this)).
      intros fresh Hfresh. unfold upToDate in *.
      destruct (applyListeners_settings (activeInputOf services) fresh)
        as (Hpure & Htemplate & _).
      rewrite (getWindowTitle_settings services fresh _ Hpure Htemplate), <- Hfresh.
      unfold applyListeners. destruct (activeInputOf services) as [activeInput|]; [| reflexivity].
      now destruct (instanceof_EditorInput activeInput). }
    now split.
  - (* integrity *)
    unfold onIntegrityChecked. destruct pure; simpl.
    + split; [discriminate | now intros _].
    + split; intros; apply refresh_upToDate.
  - (* input *)
    split.
    + intros Hsome. apply fire_upToDate. right.
      destruct (listenersOf id event this); [discriminate | congruence].
    + intros _ Hthis. apply fire_upToDate. now left.
  - split; discriminate.
  - split; [discriminate |]. intros _. now apply Hkeep.
  - split; [discriminate |]. intros _.
    destruct (createContentArea_settings parent this) as (Hpure & Htemplate & _).
    destruct (createContentArea_flushes parent this) as (_ & _ & _ & Hdoc).
    apply Hkeep; [exact Hpure | exact Htemplate | exact Hdoc].
Qed.
End StaleProperties.

(** ** The font size of the title *)

Section LayoutProperties.
Context `{Imports} `{Browser}.

Lemma steps_snoc events e this : steps (events ++ [e]) this = step e (steps events this).
Proof. unfold steps. now rewrite foldl_app. Qed.

Lemma lastZoomFactor_snoc events e :
  lastZoomFactor (events ++ [e])
  = match e with
    | Layout zoomFactor _ => Some zoomFactor
    | _ => lastZoomFactor events
    end.
Proof. unfold lastZoomFactor. now rewrite foldl_app. Qed.

Lemma setTitle_container t this : titleContainer (setTitle t this) = titleContainer this.
Proof. unfold setTitle. destruct this as [? [element|] ? ? ? ? ? ? ? ? ? ? ?]; reflexivity. Qed.

Lemma applyListeners_container activeInput this :
  titleContainer (applyListeners activeInput this) = titleContainer this.
Proof.
  unfold applyListeners. destruct activeInput as [activeInput|]; [| reflexivity].
  now destruct (instanceof_EditorInput activeInput).
Qed.

(** The font size and the presence of the container of a part. *)
Lemma updateStyles_fontSize services this :
  (style <$> titleContainer (updateStyles services this)) ≫= (.!! "fontSize")
  = (style <$> titleContainer this) ≫= (.!! "fontSize")
  /\ (titleContainer (updateStyles services this) = None <-> titleContainer this = None).
Proof.
  unfold updateStyles, super_updateStyles, getContainer.
  destruct (titleContainer this) as [[styles]|] eqn:Hcontainer; simpl;
    rewrite ?Hcontainer; [| now split].
  split; [| split; discriminate].
  now rewrite !lookup_insert_ne by discriminate.
Qed.

Lemma dispatch_fontSize services event this :
  isCreate (services, event) = false ->
  (style <$> titleContainer (dispatch services event this)) ≫= (.!! "fontSize")
  = (style <$> titleContainer this) ≫= (.!! "fontSize")
  /\ (titleContainer (dispatch services event this) = None <-> titleContainer this = None).
Proof.
  assert (Hsame : forall that,
            titleContainer that = titleContainer this ->
            (style <$> titleContainer that) ≫= (.!! "fontSize")
            = (style <$> titleContainer this) ≫= (.!! "fontSize")
            /\ (titleContainer that = None <-> titleContainer this = None)).
  { now intros that ->. }
  destruct event; cbn [dispatch]; intros Hcreate; try discriminate;
    unfold onDidChangeWorkspaceFolders, onDidChangeWorkspaceName;
    try (apply Hsame; apply setTitle_container).
  - apply (updateStyles_fontSize services (with_isInactive (Some true) this)).
  - apply (updateStyles_fontSize services (with_isInactive (Some false) this)).
  - apply Hsame. rewrite onConfigurationChanged_unfold. cbv zeta.
    destruct (true && negb _); [| reflexivity]. now rewrite setTitle_container.
  - apply Hsame. unfold onEditorsChanged. cbv zeta.
    now rewrite applyListeners_container, setTitle_container.
  - apply Hsame. unfold onIntegrityChecked. destruct pure; simpl; [reflexivity |].
    now rewrite setTitle_container.
  - apply Hsame.
    apply (fire_preserves (fun that => titleContainer that = titleContainer this));
      [| reflexivity].
    intros t that <-. apply setTitle_container.
  - now apply Hsame.
Qed.

(** X17: the zoom factors of successive layouts do not add up. Once the
    initial font size of the title is read, it stays what it is, and after
    any events that do not create the content area anew the font size of the
    container is the initial one divided by the zoom factor of the last
    layout (and what it was when there was no layout); blur, focus and the
    titles set in between do not touch it. *)
Theorem font_size_follows_the_last_zoom_factor size container events this :
  initialTitleFontSize this = Some size ->
  titleContainer (part this) = Some container ->
  existsb createsContentArea events = false ->
  let that := steps events this in
  initialTitleFontSize that = Some size
  /\ fontSizeOf that
     = match lastZoomFactor events with
       | Some zoomFactor => Some (Some (number_toString (divide size zoomFactor) +:+ "px"))
       | None => fontSizeOf this
       end.
Proof.
  intros Hsize Hcontainer Hevents that. subst that.
  assert (Hpresent : titleContainer (part this) <> None) by congruence.
  clear Hcontainer.
  cut (initialTitleFontSize (steps events this) = Some size
       /\ fontSizeOf (steps events this)
          = match lastZoomFactor events with
            | Some zoomFactor =>
                Some (Some (number_toString (divide size zoomFactor) +:+ "px"))
            | None => fontSizeOf this
            end
       /\ titleContainer (part (steps events this)) <> None); [tauto |].
  induction events as [|e events IH] using rev_ind; [now repeat split |].
  rewrite existsb_snoc in Hevents. apply orb_false_elim in Hevents as [Hevents He].
  destruct (IH Hevents) as (IHsize & IHfont & IHpresent).
  rewrite steps_snoc, lastZoomFactor_snoc.
  destruct e as [services event | zoomFactor dimension].
  - cbn [step]. cbn [initialTitleFontSize part].
    destruct (dispatch_fontSize services event (part (steps events this)))
      as [Hfont Hnone].
    { destruct event; try reflexivity. discriminate He. }
    split; [exact IHsize |]. split; [| tauto].
    rewrite <- IHfont. unfold fontSizeOf. cbn [part].
    revert Hfont. 
    destruct (titleContainer (dispatch services event (part (steps events this))));
      destruct (titleContainer (part (steps events this))); simpl; congruence.
  - cbn [step]. unfold layout. rewrite IHsize.
    destruct (titleContainer (part (steps events this))) as [[styles]|] eqn:Hthere;
      [| congruence].
    cbv zeta. cbn [initialTitleFontSize]. split; [reflexivity |].
    unfold fontSizeOf, set_style. simpl. rewrite lookup_insert_eq. now split.
Qed.

End LayoutProperties.

(** X17 on a part laid out at zoom factor 1, then at 2, then blurred: the
    initial size 12 is kept and the font size is 6px. *)
Lemma font_size_after_two_layouts :
  let services := sample_services sample_template None false in
  let created :=
    @Build_LaidOutPart sample_browser
      (createContentArea {| style := ∅ |}
         (@constructor reference_imports services "untitled"))
      None in
  let this :=
    @step reference_imports sample_browser (@Layout sample_browser 1 (800, 22)) created in
  let events := [@Layout sample_browser 2 (800, 22);
                 @Workbench sample_browser services WindowBlur] in
  let that := @steps reference_imports sample_browser events this in
  @initialTitleFontSize sample_browser this = Some 12
  /\ is_Some (titleContainer (@part sample_browser this))
  /\ existsb (@createsContentArea sample_browser) events = false
  /\ @initialTitleFontSize sample_browser that = Some 12
  /\ @fontSizeOf sample_browser that = Some (Some "6px").
Proof.
  intros services created this events that.
  split; [reflexivity |]. split; [eexists; reflexivity |]. split; [reflexivity |].
  destruct (@font_size_follows_the_last_zoom_factor reference_imports sample_browser
              12 {| style := <["fontSize" := Some "12px"]> ∅ |} events this
              eq_refl eq_refl eq_refl) as [Hsize Hfont].
  split; [exact Hsize | exact Hfont].
Defined.
